(** * A two-stage metadata pipeline: extraction (lambda_function.py)
      and transformation (glue_job.py)

    Shallow embedding of the two Python sources and the properties
    established about them.

    Conventions.
    - Text is ASCII: a Python [str] is a [string].
    - A Python exception is a value of [exn]; a computation that may
      raise returns [Res A = exn + A].  Every constructor of [exn] stands
      for a subclass of Python's [Exception], so [except Exception]
      catches all of them.
    - Python dictionaries with a fixed key set are records; dictionaries
      with data-dependent keys are [gmap]s.
    - The wall clock, the upstream API, the process environment and the
      object store are explicit arguments or components of the state. *)

From stdpp Require Import gmap strings list fin_maps pretty.
From Stdlib Require Import ZArith Lia Ascii String Sorted Permutation.

Local Open Scope string_scope.
Local Open Scope Z_scope.

(** ** Exceptions and results *)

Inductive exn : Type :=
  | KeyError (key : string)
  | ValueError (what : string)
  | OverflowError
  | HttpError (msg : string)
  | ClientError (msg : string)
  | AnalysisException (msg : string)
  | OtherError (msg : string).

Definition Res (A : Type) : Type := (exn + A)%type.

Definition ok {A} (a : A) : Res A := inr a.
Definition raise {A} (e : exn) : Res A := inl e.

Definition rbind {A B} (m : Res A) (k : A -> Res B) : Res B :=
  match m with
  | inl e => inl e
  | inr a => k a
  end.

Notation "'let?' x ':=' m 'in' k" := (rbind m (fun x => k))
  (at level 10, x pattern, m at level 100, k at level 200, only parsing).

Fixpoint mapM {A B} (f : A -> Res B) (l : list A) : Res (list B) :=
  match l with
  | [] => ok []
  | x :: l' =>
      let? y := f x in
      let? ys := mapM f l' in
      ok (y :: ys)
  end.

(** [d[key]] for a key that may be absent ([None]), and for a dictionary
    with data-dependent keys: an absent key raises [KeyError]. *)
Definition getitem {A} (key : string) (o : option A) : Res A :=
  match o with
  | Some a => ok a
  | None => raise (KeyError key)
  end.

Definition subscript {A} (m : gmap string A) (key : string) : Res A :=
  getitem key (m !! key).

(** ** Python built-ins used by both sources *)

Module Py.

Definition chars (s : string) : list ascii := list_ascii_of_string s.
Definition text (l : list ascii) : string := string_of_list_ascii l.

Definition code (c : ascii) : Z := Z.of_nat (nat_of_ascii c).

Definition is_digit (c : ascii) : bool := (48 <=? code c) && (code c <=? 57).
Definition digit_val (c : ascii) : Z := code c - 48.

(** ASCII white space as [str.strip] and [int] see it. *)
Definition is_space (c : ascii) : bool :=
  ((9 <=? code c) && (code c <=? 13)) || (code c =? 32).

Fixpoint lstrip (l : list ascii) : list ascii :=
  match l with
  | c :: l' => if is_space c then lstrip l' else l
  | [] => []
  end.

Definition strip (l : list ascii) : list ascii :=
  rev (lstrip (rev (lstrip l))).

(** Digits of a decimal literal; a single underscore may separate two
    digits. *)
Fixpoint int_digits (acc : Z) (l : list ascii) : option Z :=
  match l with
  | [] => Some acc
  | c :: l' =>
      if is_digit c then int_digits (10 * acc + digit_val c) l'
      else if Ascii.eqb c "_" then
        match l' with
        | d :: _ => if is_digit d then int_digits acc l' else None
        | [] => None
        end
      else None
  end.

Definition int_unsigned (l : list ascii) : option Z :=
  match l with
  | c :: _ => if is_digit c then int_digits 0 l else None
  | [] => None
  end.

(** [int(s)] for a string [s], base 10. *)
Definition int_str (s : string) : Res Z :=
  let body := strip (chars s) in
  let r :=
    match body with
    | c :: rest =>
        if Ascii.eqb c "-" then Z.opp <$> int_unsigned rest
        else if Ascii.eqb c "+" then int_unsigned rest
        else int_unsigned body
    | [] => None
    end in
  match r with
  | Some z => ok z
  | None => raise (ValueError ("invalid literal for int() with base 10: " +:+ s))
  end.

(** A value that is either a [str] or an [int]: the statistics of an
    item are strings when the upstream reports them and the integer
    [0] when it does not. *)
Inductive value : Type :=
  | Str (s : string)
  | Int (z : Z).

Definition int (v : value) : Res Z :=
  match v with
  | Str s => int_str s
  | Int z => ok z
  end.

(** [str(n)] for an integer. *)
Definition str (z : Z) : string := pretty z.

Fixpoint zeros (n : nat) : string :=
  match n with
  | O => ""
  | S n' => String "0" (zeros n')
  end.

(** [s.zfill(width)]: the sign, when there is one, stays in front. *)
Definition zfill (width : nat) (s : string) : string :=
  let pad := zeros (width - String.length s) in
  match s with
  | String c rest =>
      if Ascii.eqb c "-" || Ascii.eqb c "+" then String c (pad +:+ rest)
      else pad +:+ s
  | EmptyString => pad
  end.

(** [s.replace(a, b)] for single characters. *)
Fixpoint replace (a b : ascii) (s : string) : string :=
  match s with
  | EmptyString => EmptyString
  | String c rest => String (if Ascii.eqb c a then b else c) (replace a b rest)
  end.

(** [sep.join(l)]. *)
Fixpoint join (sep : string) (l : list string) : string :=
  match l with
  | [] => ""
  | [x] => x
  | x :: l' => x +:+ sep +:+ join sep l'
  end.

(** *** [datetime] *)

Record datetime : Type := {
  year : Z; month : Z; day : Z;
  hour : Z; minute : Z; second : Z; microsecond : Z
}.

Definition is_leap (y : Z) : bool :=
  (y mod 4 =? 0) && (negb (y mod 100 =? 0) || (y mod 400 =? 0)).

Definition days_in_month (y m : Z) : Z :=
  if (m =? 2) && is_leap y then 29
  else nth (Z.to_nat m) [0; 31; 28; 31; 30; 31; 30; 31; 31; 30; 31; 30; 31] 0.

Definition days_before_month (y m : Z) : Z :=
  nth (Z.to_nat m) [0; 0; 31; 59; 90; 120; 151; 181; 212; 243; 273; 304; 334] 0
  + (if (2 <? m) && is_leap y then 1 else 0).

Definition days_before_year (y : Z) : Z :=
  let p := y - 1 in p * 365 + p / 4 - p / 100 + p / 400.

(** [toordinal]: 0001-01-01 is day 1. *)
Definition ymd2ord (y m d : Z) : Z :=
  days_before_year y + days_before_month y m + d.

Definition between (lo x hi : Z) : bool := (lo <=? x) && (x <=? hi).

(** The range checks of the [datetime] constructor. *)
Definition valid (t : datetime) : bool :=
  between 1 (year t) 9999 && between 1 (month t) 12
  && between 1 (day t) (days_in_month (year t) (month t))
  && between 0 (hour t) 23 && between 0 (minute t) 59
  && between 0 (second t) 59 && between 0 (microsecond t) 999999.

(** Position on the time line, in microseconds; comparison of two naive
    datetimes is comparison of these. *)
Definition micros (t : datetime) : Z :=
  ((ymd2ord (year t) (month t) (day t) * 86400
    + hour t * 3600 + minute t * 60 + second t) * 1000000)
  + microsecond t.

Definition day_micros : Z := 86400 * 1000000.

(** [t - timedelta(days=n)], as a position on the time line; the
    subtraction overflows when it leaves the range of [datetime]. *)
Definition minus_days (t : datetime) (n : Z) : Res Z :=
  if ymd2ord (year t) (month t) (day t) - n <? 1 then raise OverflowError
  else ok (micros t - n * day_micros).

(** *** [datetime.strptime]

    The format is compiled to a regular expression in which every
    directive is a group of fixed-length alternatives, tried from left
    to right; letters of the format match case-insensitively. *)

Inductive cls : Type :=
  | Digit
  | Range (lo hi : ascii)
  | Exact (c : ascii).

Definition cls_match (k : cls) (c : ascii) : bool :=
  match k with
  | Digit => is_digit c
  | Range lo hi => (code lo <=? code c) && (code c <=? code hi)
  | Exact x => Ascii.eqb c x
  end.

Definition lower (c : ascii) : ascii :=
  if between 65 (code c) 90 then ascii_of_nat (nat_of_ascii c + 32) else c.

Inductive piece : Type :=
  | Group (alts : list (list cls))
  | Literal (c : ascii).

Fixpoint match_alt (p : list cls) (l : list ascii) : option (list ascii * list ascii) :=
  match p with
  | [] => Some ([], l)
  | k :: p' =>
      match l with
      | c :: l' =>
          if cls_match k c then
            match match_alt p' l' with
            | Some (m, r) => Some (c :: m, r)
            | None => None
            end
          else None
      | [] => None
      end
  end.

(** Matching with backtracking over the alternatives of each group:
    the groups captured and the unmatched rest. *)
Fixpoint match_pieces (ps : list piece) (l : list ascii)
  : option (list (list ascii) * list ascii) :=
  match ps with
  | [] => Some ([], l)
  | Literal x :: ps' =>
      match l with
      | c :: l' =>
          if Ascii.eqb (lower c) (lower x) then match_pieces ps' l' else None
      | [] => None
      end
  | Group alts :: ps' =>
      (fix try (alts : list (list cls)) :=
         match alts with
         | [] => None
         | a :: alts' =>
             match match_alt a l with
             | Some (m, r) =>
                 match match_pieces ps' r with
                 | Some (caps, rest) => Some (m :: caps, rest)
                 | None => try alts'
                 end
             | None => try alts'
             end
         end) alts
  end.

Definition re_Y : piece := Group [[Digit; Digit; Digit; Digit]].
Definition re_m : piece :=
  Group [[Exact "1"; Range "0" "2"]; [Exact "0"; Range "1" "9"]; [Range "1" "9"]].
Definition re_d : piece :=
  Group [[Exact "3"; Range "0" "1"]; [Range "1" "2"; Digit];
         [Exact "0"; Range "1" "9"]; [Range "1" "9"]; [Exact " "; Range "1" "9"]].
Definition re_H : piece :=
  Group [[Exact "2"; Range "0" "3"]; [Range "0" "1"; Digit]; [Digit]].
Definition re_M : piece := Group [[Range "0" "5"; Digit]; [Digit]].
Definition re_S : piece :=
  Group [[Exact "6"; Range "0" "1"]; [Range "0" "5"; Digit]; [Digit]].

(** ["%Y-%m-%dT%H:%M:%SZ"] *)
Definition iso_z : list piece :=
  [re_Y; Literal "-"; re_m; Literal "-"; re_d; Literal "T";
   re_H; Literal ":"; re_M; Literal ":"; re_S; Literal "Z"].

Definition bad_time (s : string) : exn :=
  ValueError ("time data " +:+ s +:+ " does not match format").

(** [datetime.strptime(s, "%Y-%m-%dT%H:%M:%SZ")]. *)
Definition strptime (s : string) : Res datetime :=
  match match_pieces iso_z (chars s) with
  | Some ([gY; gm; gd; gH; gM; gS], rest) =>
      match rest with
      | _ :: _ => raise (ValueError ("unconverted data remains: " +:+ text rest))
      | [] =>
          let? Y := int_str (text gY) in
          let? m := int_str (text gm) in
          let? d := int_str (text gd) in
          let? H := int_str (text gH) in
          let? M := int_str (text gM) in
          let? sec := int_str (text gS) in
          let t := {| year := Y; month := m; day := d;
                      hour := H; minute := M; second := sec; microsecond := 0 |} in
          if valid t then ok t else raise (ValueError "value out of range")
      end
  | _ => raise (bad_time s)
  end.

(** [t.strftime('%Y-%m')]; years are written with four digits. *)
Definition strftime_Y_m (t : datetime) : string :=
  zfill 4 (str (year t)) +:+ "-" +:+ zfill 2 (str (month t)).

(** [t.strftime('%Y%m%d_%H%M%S')]. *)
Definition strftime_stamp (t : datetime) : string :=
  zfill 4 (str (year t)) +:+ zfill 2 (str (month t)) +:+ zfill 2 (str (day t))
  +:+ "_" +:+ zfill 2 (str (hour t)) +:+ zfill 2 (str (minute t))
  +:+ zfill 2 (str (second t)).

(** *** [sorted(l, key=..., reverse=True)]

    [sort_desc] sorts elements paired with their keys.  The sort is
    stable: of two elements with the same key the one that comes first
    in the input comes first in the result, also when the order is
    reversed. *)

Section Sorted.
Context {A : Type}.

Fixpoint insert_desc (x : Z * A) (l : list (Z * A)) : list (Z * A) :=
  match l with
  | [] => [x]
  | y :: l' =>
      if fst y <=? fst x then x :: y :: l'
      else y :: insert_desc x l'
  end.

Fixpoint sort_desc (l : list (Z * A)) : list (Z * A) :=
  match l with
  | [] => []
  | x :: l' => insert_desc x (sort_desc l')
  end.

(** All keys are computed before any comparison, so a key that raises
    aborts the sort. *)
Definition sorted_reverse (key : A -> Res Z) (l : list A) : Res (list A) :=
  let? ks := mapM key l in
  ok (snd <$> sort_desc (zip ks l)).
End Sorted.

End Py.

(** ** lambda_function.py: the extraction stage *)

Module Lambda.

(** *** Records produced by the extractor *)

(** The dictionary returned by [get_channel_info]. *)
Module Channel.
Record t : Type := {
  channel_id : string; title : string; description : string;
  published_at : string; view_count : string;
  subscriber_count : string; video_count : string; playlist_id : string
}.
End Channel.

(** One element of the list returned by [get_channel_videos]. *)
Module Video.
Record t : Type := {
  video_id : string; title : string; description : string;
  published_at : string; view_count : Py.value;
  like_count : Py.value; comment_count : Py.value; duration : string
}.
End Video.

Module TopVideo.
Record t : Type := {
  title : string; video_id : string;
  view_count : Py.value; published_at : string
}.
End TopVideo.

Module ChannelStats.
Record t : Type := {
  name : string; subscribers : string;
  total_videos : string; total_views : string
}.
End ChannelStats.

Module Analysis.
Record t : Type := {
  channel_stats : ChannelStats.t;
  video_trends : gmap string Z;
  top_videos : list TopVideo.t
}.
End Analysis.

(** The object handed to [upload_to_s3]. *)
Module Assembled.
Record t : Type := {
  channel_info : Channel.t;
  videos : list Video.t;
  analysis : Analysis.t
}.
End Assembled.

(** *** The upstream API

    A response is a JSON object; a key that is absent is [None], and
    subscripting it raises [KeyError].  The objects [snippet],
    [statistics] and [contentDetails] are dictionaries of strings. *)

Module SearchResult.
Record t : Type := { id : option (gmap string string) }.
End SearchResult.

Module ChannelResource.
Record t : Type := {
  id : option string;
  snippet : option (gmap string string);
  statistics : option (gmap string string);
  contentDetails : option (gmap string (gmap string string))
}.
End ChannelResource.

Module PlaylistItem.
Record t : Type := {
  snippet : option (gmap string string);
  contentDetails : option (gmap string string)
}.
End PlaylistItem.

Module VideoResource.
Record t : Type := {
  statistics : option (gmap string string);
  contentDetails : option (gmap string string)
}.
End VideoResource.

Record page (A : Type) : Type := {
  items : option (list A);
  nextPageToken : option string
}.
Arguments items {A} _.
Arguments nextPageToken {A} _.

(** The service object built from the API key; each field is one
    [....list(...).execute()] call. *)
Record YouTube : Type := {
  search_list : string -> Res (page SearchResult.t);
  channels_list : string -> Res (page ChannelResource.t);
  playlistItems_list : string -> Z -> option string -> Res (page PlaylistItem.t);
  videos_list : string -> Res (page VideoResource.t)
}.

(** *** The world of one invocation *)

Inductive log_entry : Type :=
  | ErrorChannelInfo (e : exn)
  | ErrorChannelVideos (e : exn)
  | ErrorS3Upload (e : exn)
  | InfoUploaded (bucket key : string)
  | ErrorLambda (e : exn).

Record Env : Type := {
  environ : gmap string string;
  build : string -> Res YouTube;
  utc_clock : nat -> Py.datetime;
  put_object : string -> string -> option exn
}.

Record State : Type := {
  log : list log_entry;
  objects : gmap (string * string) Assembled.t;
  ticks : nat
}.

Inductive outcome (A : Type) : Type :=
  | Ret (a : A)
  | Raise (e : exn)
  | Diverge.
Arguments Ret {A} a.
Arguments Raise {A} e.
Arguments Diverge {A}.

Definition M (A : Type) : Type := State -> outcome A * State.

Definition ret {A} (a : A) : M A := fun s => (Ret a, s).

Definition bind {A B} (m : M A) (k : A -> M B) : M B :=
  fun s =>
    match m s with
    | (Ret a, s') => k a s'
    | (Raise e, s') => (Raise e, s')
    | (Diverge, s') => (Diverge, s')
    end.

Notation "'let!' x ':=' m 'in' k" := (bind m (fun x => k))
  (at level 10, x pattern, m at level 100, k at level 200, only parsing).

Definition lift {A} (r : Res A) : M A :=
  fun s => match r with inr a => (Ret a, s) | inl e => (Raise e, s) end.

(** [try: m except Exception as e: h e]. *)
Definition try_except {A} (m : M A) (h : exn -> M A) : M A :=
  fun s =>
    match m s with
    | (Raise e, s') => h e s'
    | r => r
    end.

Definition logger (entry : log_entry) : M unit :=
  fun s => (Ret tt, {| log := log s ++ [entry]; objects := objects s; ticks := ticks s |}).

(** [datetime.utcnow()]: successive readings of the clock. *)
Definition utcnow (env : Env) : M Py.datetime :=
  fun s => (Ret (utc_clock env (ticks s)),
            {| log := log s; objects := objects s; ticks := S (ticks s) |}).

(** *** [YouTubeExtractor.get_channel_info] *)

Definition startswith (s p : string) : bool := String.prefix p s.

(** The body of the [try] block. *)
Definition channel_info_body (youtube : YouTube) (channel_identifier : string)
  : Res (option Channel.t) :=
  let? channel_id :=
    if negb (startswith channel_identifier "UC") then
      let? search_response := search_list youtube channel_identifier in
      let? found := getitem "items" (items search_response) in
      match found with
      | [] => ok None
      | first :: _ =>
          let? id := getitem "id" (SearchResult.id first) in
          let? channel_id := subscript id "channelId" in
          ok (Some channel_id)
      end
    else ok (Some channel_identifier) in
  match channel_id with
  | None => ok None
  | Some channel_id =>
      let? channel_response := channels_list youtube channel_id in
      let? found := getitem "items" (items channel_response) in
      match found with
      | [] => ok None
      | channel_info :: _ =>
          let? id := getitem "id" (ChannelResource.id channel_info) in
          let? snippet := getitem "snippet" (ChannelResource.snippet channel_info) in
          let? title := subscript snippet "title" in
          let? description := subscript snippet "description" in
          let? publishedAt := subscript snippet "publishedAt" in
          let? statistics := getitem "statistics" (ChannelResource.statistics channel_info) in
          let? viewCount := subscript statistics "viewCount" in
          let subscriberCount := default "N/A" (statistics !! "subscriberCount") in
          let? videoCount := subscript statistics "videoCount" in
          let? contentDetails :=
            getitem "contentDetails" (ChannelResource.contentDetails channel_info) in
          let? relatedPlaylists := subscript contentDetails "relatedPlaylists" in
          let? uploads := subscript relatedPlaylists "uploads" in
          ok (Some {| Channel.channel_id := id;
                      Channel.title := title;
                      Channel.description := description;
                      Channel.published_at := publishedAt;
                      Channel.view_count := viewCount;
                      Channel.subscriber_count := subscriberCount;
                      Channel.video_count := videoCount;
                      Channel.playlist_id := uploads |})
      end
  end.

Definition get_channel_info (youtube : YouTube) (channel_identifier : string)
  : M (option Channel.t) :=
  try_except (lift (channel_info_body youtube channel_identifier))
    (fun e => let! _ := logger (ErrorChannelInfo e) in ret None).

(** *** [YouTubeExtractor.get_channel_videos] *)

Definition len {A} (l : list A) : Z := Z.of_nat (List.length l).

Definition video_ids (its : list PlaylistItem.t) : Res (list string) :=
  mapM (fun item =>
          let? contentDetails := getitem "contentDetails" (PlaylistItem.contentDetails item) in
          subscript contentDetails "videoId") its.

Definition stat (statistics : gmap string string) (key : string) : Py.value :=
  match statistics !! key with
  | Some s => Py.Str s
  | None => Py.Int 0
  end.

Definition video_of (pv : PlaylistItem.t * VideoResource.t) : Res Video.t :=
  let '(playlist_item, video_item) := pv in
  let? contentDetails := getitem "contentDetails" (PlaylistItem.contentDetails playlist_item) in
  let? videoId := subscript contentDetails "videoId" in
  let? snippet := getitem "snippet" (PlaylistItem.snippet playlist_item) in
  let? title := subscript snippet "title" in
  let? description := subscript snippet "description" in
  let? publishedAt := subscript snippet "publishedAt" in
  let? statistics := getitem "statistics" (VideoResource.statistics video_item) in
  let? vdetails := getitem "contentDetails" (VideoResource.contentDetails video_item) in
  let? duration := subscript vdetails "duration" in
  ok {| Video.video_id := videoId;
        Video.title := title;
        Video.description := description;
        Video.published_at := publishedAt;
        Video.view_count := stat statistics "viewCount";
        Video.like_count := stat statistics "likeCount";
        Video.comment_count := stat statistics "commentCount";
        Video.duration := duration |}.

(** One turn of the [while True] loop: the list of videos after the
    page was appended, and the token of the next page. *)
Definition videos_page (youtube : YouTube) (playlist_id : string) (max_results : Z)
    (videos : list Video.t) (next_page_token : option string)
  : Res (list Video.t * option string) :=
  let? playlist_response :=
    playlistItems_list youtube playlist_id
      (Z.min 50 (max_results - len videos)) next_page_token in
  let? pitems := getitem "items" (items playlist_response) in
  let? ids := video_ids pitems in
  let? video_response := videos_list youtube (Py.join "," ids) in
  let? vitems := getitem "items" (items video_response) in
  let? new := mapM video_of (zip pitems vitems) in
  ok ((videos ++ new)%list, nextPageToken playlist_response).

Definition truthy (token : option string) : bool :=
  match token with
  | Some (String _ _) => true
  | _ => false
  end.

(** The loop, with a bound on the number of pages fetched; [None] when
    the bound is reached before the loop ends. *)
Fixpoint videos_loop (fuel : nat) (youtube : YouTube) (playlist_id : string)
    (max_results : Z) (videos : list Video.t) (next_page_token : option string)
  : option (Res (list Video.t)) :=
  match fuel with
  | O => None
  | S fuel' =>
      match videos_page youtube playlist_id max_results videos next_page_token with
      | inl e => Some (raise e)
      | inr (videos', token') =>
          if negb (truthy token') || (max_results <=? len videos')
          then Some (ok videos')
          else videos_loop fuel' youtube playlist_id max_results videos' token'
      end
  end.

Definition get_channel_videos (fuel : nat) (youtube : YouTube)
    (playlist_id : string) (max_results : Z) : M (option (list Video.t)) :=
  fun s =>
    match videos_loop fuel youtube playlist_id max_results [] None with
    | None => (Diverge, s)
    | Some (inr videos) => (Ret (Some videos), s)
    | Some (inl e) => (let! _ := logger (ErrorChannelVideos e) in ret None) s
    end.

(** *** [upload_to_s3] *)

Definition is_ClientError (e : exn) : bool :=
  match e with
  | ClientError _ => true
  | _ => false
  end.

Definition upload_to_s3 (env : Env) (data : Assembled.t) (bucket key : string) : M bool :=
  fun s =>
    match put_object env bucket key with
    | None =>
        (Ret true,
         {| log := log s ++ [InfoUploaded bucket key];
            objects := <[(bucket, key) := data]> (objects s);
            ticks := ticks s |})
    | Some e =>
        if is_ClientError e
        then (let! _ := logger (ErrorS3Upload e) in ret false) s
        else (Raise e, s)
    end.

(** *** [analyze_channel_data] *)

Definition top_video (video : Video.t) : TopVideo.t :=
  {| TopVideo.title := Video.title video;
     TopVideo.video_id := Video.video_id video;
     TopVideo.view_count := Video.view_count video;
     TopVideo.published_at := Video.published_at video |}.

(** The loop that counts the videos of each month. *)
Fixpoint count_trends (twelve_months_ago : Z) (videos_data : list Video.t)
    (video_trends : gmap string Z) : Res (gmap string Z) :=
  match videos_data with
  | [] => ok video_trends
  | video :: rest =>
      let? published_date := Py.strptime (Video.published_at video) in
      count_trends twelve_months_ago rest
        (if twelve_months_ago <=? Py.micros published_date then
           let month_key := Py.strftime_Y_m published_date in
           <[month_key := default 0 (video_trends !! month_key) + 1]> video_trends
         else video_trends)
  end.

(** [current_time] is the reading of [datetime.utcnow()] on entry. *)
Definition analyze_channel_data (current_time : Py.datetime)
    (channel_data : Channel.t) (videos_data : list Video.t) : Res Analysis.t :=
  let? twelve_months_ago := Py.minus_days current_time 365 in
  let stats :=
    {| ChannelStats.name := Channel.title channel_data;
       ChannelStats.subscribers := Channel.subscriber_count channel_data;
       ChannelStats.total_videos := Channel.video_count channel_data;
       ChannelStats.total_views := Channel.view_count channel_data |} in
  let? videos_by_views :=
    Py.sorted_reverse (fun x => Py.int (Video.view_count x)) videos_data in
  let top := top_video <$> take 10 videos_by_views in
  let? trends := count_trends twelve_months_ago videos_data ∅ in
  ok {| Analysis.channel_stats := stats;
        Analysis.video_trends := trends;
        Analysis.top_videos := top |}.

(** *** [lambda_handler] *)

Inductive body : Type :=
  | Completed
  | Error (e : exn).

Record response : Type := { statusCode : Z; body_ : body }.

Definition channels : list string :=
  ["@straitstimesonline"; "@TheBusinessTimes"; "@Tamil_Murasu";
   "@zaobaodotsg"; "@BeritaHarianSG1957"].

(** The body of the [for] loop. *)
Definition process_channel (fuel : nat) (env : Env) (extractor : YouTube)
    (S3_BUCKET : string) (channel : string) : M unit :=
  let! channel_info := get_channel_info extractor channel in
  match channel_info with
  | None => ret tt
  | Some channel_info =>
      let! videos := get_channel_videos fuel extractor (Channel.playlist_id channel_info) 100 in
      match videos with
      | None | Some [] => ret tt
      | Some videos =>
          let! current_time := utcnow env in
          let! analysis := lift (analyze_channel_data current_time channel_info videos) in
          let! stamp := utcnow env in
          let timestamp := Py.strftime_stamp stamp in
          let key := "raw/" +:+ Py.replace " " "_" (Channel.title channel_info)
                     +:+ "_" +:+ timestamp +:+ ".json" in
          let! _ :=
            upload_to_s3 env
              {| Assembled.channel_info := channel_info;
                 Assembled.videos := videos;
                 Assembled.analysis := analysis |} S3_BUCKET key in
          ret tt
      end
  end.

Fixpoint for_channels (fuel : nat) (env : Env) (extractor : YouTube)
    (S3_BUCKET : string) (cs : list string) : M unit :=
  match cs with
  | [] => ret tt
  | channel :: rest =>
      let! _ := process_channel fuel env extractor S3_BUCKET channel in
      for_channels fuel env extractor S3_BUCKET rest
  end.

(** The body of the handler's [try] block, up to the [return]. *)
Definition handler_body (fuel : nat) (env : Env) : M unit :=
  let! API_KEY := lift (subscript (environ env) "YOUTUBE_API_KEY") in
  let! S3_BUCKET := lift (subscript (environ env) "S3_BUCKET_NAME") in
  let! extractor := lift (build env API_KEY) in
  for_channels fuel env extractor S3_BUCKET channels.

Definition lambda_handler (fuel : nat) (env : Env) : M response :=
  try_except
    (let! _ := handler_body fuel env in
     ret {| statusCode := 200; body_ := Completed |})
    (fun e =>
       let! _ := logger (ErrorLambda e) in
       ret {| statusCode := 500; body_ := Error e |}).

End Lambda.

(** ** The query engine, as far as glue_job.py relies on it

    A column value is nullable: [None] is SQL's NULL.  The job sets no
    engine configuration, so casts follow the engine's default
    (non-ANSI) rules, under which a string that is not a number casts to
    NULL, and an overwrite of a partitioned table is static: it replaces
    everything under the output path.  A frame is a list of rows and a
    row is a record: the two columns called [view_count] of the joined
    frame are told apart by the side of the join they come from. *)

Module Spark.

(** Bytes that are trimmed before a string is read as a number: white
    space and control characters. *)
Definition is_blank (c : ascii) : bool :=
  (Py.code c <=? 32) || (Py.code c =? 127).

Fixpoint ltrim (l : list ascii) : list ascii :=
  match l with
  | c :: l' => if is_blank c then ltrim l' else l
  | [] => []
  end.

Definition trim (l : list ascii) : list ascii := rev (ltrim (rev (ltrim l))).

(** The integral digits, up to the end or to a decimal point; the
    value read and what follows the point. *)
Fixpoint integral (acc : Z) (l : list ascii) : option (Z * list ascii) :=
  match l with
  | [] => Some (acc, [])
  | c :: l' =>
      if Ascii.eqb c "." then Some (acc, l')
      else if Py.is_digit c then integral (10 * acc + Py.digit_val c) l'
      else None
  end.

Definition in_long (z : Z) : bool :=
  (- 2 ^ 63 <=? z) && (z <=? 2 ^ 63 - 1).

(** [CAST(s AS BIGINT)] for a string: an optional sign, digits, and an
    optional fraction that is checked and dropped; NULL when the text
    is not of that form or the value does not fit 64 bits. *)
Definition string_to_long (s : string) : option Z :=
  match trim (Py.chars s) with
  | [] => None
  | c :: rest =>
      let negative := Ascii.eqb c "-" in
      let signed := negative || Ascii.eqb c "+" in
      let digits := if signed then rest else c :: rest in
      match digits with
      | [] => None
      | _ :: _ =>
          match integral 0 digits with
          | Some (v, fraction) =>
              let r := if negative then - v else v in
              if forallb Py.is_digit fraction && in_long r then Some r else None
          | None => None
          end
      end
  end.

Definition cast_long (v : option string) : option Z :=
  match v with
  | Some s => string_to_long s
  | None => None
  end.

(** Equality in a join condition: NULL is equal to nothing. *)
Definition sql_eq (a b : option string) : bool :=
  match a, b with
  | Some x, Some y => String.eqb x y
  | _, _ => false
  end.

(** A point in time, in microseconds since the epoch. *)
Definition timestamp : Type := Z.

End Spark.

(** ** glue_job.py: the transformation stage *)

Module Glue.

(** *** The raw records, read with the expected schema

    Every field of the schema is a nullable string.  A record without
    [channel_info] reads as one whose channel fields are all NULL, and
    a record without [videos] as one with no videos. *)

Module RawVideo.
Record t : Type := {
  video_id : option string; title : option string;
  description : option string; published_at : option string;
  view_count : option string; like_count : option string;
  comment_count : option string; duration : option string
}.
End RawVideo.

Module RawChannel.
Record t : Type := {
  channel_id : option string; title : option string;
  description : option string; published_at : option string;
  view_count : option string; subscriber_count : option string;
  video_count : option string; playlist_id : option string
}.
End RawChannel.

Module Raw.
Record t : Type := {
  videos : list RawVideo.t;
  channel_info : RawChannel.t
}.
End Raw.

(** *** The frames of [transform_data] *)

(** A row of [channel_df]. *)
Module ChannelRow.
Record t : Type := {
  channel_id : option string;
  channel_title : option string;
  channel_description : option string;
  channel_published_at : option Spark.timestamp;
  subscriber_count : option Z;
  video_count : option Z;
  view_count : option Z;
  playlist_id : option string
}.
End ChannelRow.

(** The columns of a row of [videos_df] other than [vid_channel_id]. *)
Module VideoRow.
Record t : Type := {
  video_id : option string;
  video_title : option string;
  video_description : option string;
  published_at : option Spark.timestamp;
  view_count : option Z;
  like_count : option Z;
  comment_count : option Z;
  duration : option string
}.
End VideoRow.

(** A row of [transformed_df]: the columns of the left side of the
    join, then those of the right side, then the columns added. *)
Module Row.
Record t : Type := {
  video : VideoRow.t;
  channel : ChannelRow.t;
  year : Z; month : Z; day : Z;
  processed_timestamp : Spark.timestamp
}.
End Row.

Module DateInfo.
Record t : Type := { year : Z; month : Z; day : Z; date_path : string }.
End DateInfo.

(** [get_date_paths], for the reading [current_time] of
    [datetime.now()]. *)
Definition get_date_paths (current_time : Py.datetime) : Res DateInfo.t :=
  let year := Py.year current_time in
  let month := Py.zfill 2 (Py.str (Py.month current_time)) in
  let day := Py.zfill 2 (Py.str (Py.day current_time)) in
  let date_path := "year=" +:+ Py.str year +:+ "/month=" +:+ month +:+ "/day=" +:+ day in
  let? m := Py.int_str month in
  let? d := Py.int_str day in
  ok {| DateInfo.year := year; DateInfo.month := m; DateInfo.day := d;
        DateInfo.date_path := date_path |}.

Definition partition : Type := (Z * Z * Z)%type.

(** The objects the job reads and writes: the raw records found under
    each input path, and the partitions of the table stored under each
    output path.  A path is a whole key: the store is taken to hold
    nothing under a path that lies below another path of the store, so
    what an overwrite does to objects nested below its root is not
    described. *)
Record Store : Type := {
  raw : gmap string (list Raw.t);
  tables : gmap string (gmap partition (list Row.t));
  committed : bool
}.

Section Transform.
(** The engine's reading of a string as a timestamp. *)
Context (to_timestamp : option string -> option Spark.timestamp).

(** [raw_df.select(col("channel_info"), explode(col("videos")))] *)
Definition exploded_df (raw_df : list Raw.t) : list (RawChannel.t * RawVideo.t) :=
  r ← raw_df; (fun video => (Raw.channel_info r, video)) <$> Raw.videos r.

Definition channel_row (e : RawChannel.t * RawVideo.t) : ChannelRow.t :=
  let c := fst e in
  {| ChannelRow.channel_id := RawChannel.channel_id c;
     ChannelRow.channel_title := RawChannel.title c;
     ChannelRow.channel_description := RawChannel.description c;
     ChannelRow.channel_published_at := to_timestamp (RawChannel.published_at c);
     ChannelRow.subscriber_count := Spark.cast_long (RawChannel.subscriber_count c);
     ChannelRow.video_count := Spark.cast_long (RawChannel.video_count c);
     ChannelRow.view_count := Spark.cast_long (RawChannel.view_count c);
     ChannelRow.playlist_id := RawChannel.playlist_id c |}.

Definition video_row (e : RawChannel.t * RawVideo.t) : option string * VideoRow.t :=
  let v := snd e in
  (RawChannel.channel_id (fst e),
   {| VideoRow.video_id := RawVideo.video_id v;
      VideoRow.video_title := RawVideo.title v;
      VideoRow.video_description := RawVideo.description v;
      VideoRow.published_at := to_timestamp (RawVideo.published_at v);
      VideoRow.view_count := Spark.cast_long (RawVideo.view_count v);
      VideoRow.like_count := Spark.cast_long (RawVideo.like_count v);
      VideoRow.comment_count := Spark.cast_long (RawVideo.comment_count v);
      VideoRow.duration := RawVideo.duration v |}).

(** [videos_df.join(channel_df, vid_channel_id == channel_id, "inner")]:
    every pair of a left and a right row that satisfies the
    condition.  The engine fixes no order of the result; the pairs
    are listed here by left row, then by right row. *)
Definition join (videos_df : list (option string * VideoRow.t))
    (channel_df : list ChannelRow.t) : list ((option string * VideoRow.t) * ChannelRow.t) :=
  v ← videos_df;
  (fun c => (v, c)) <$>
    List.filter (fun c => Spark.sql_eq (fst v) (ChannelRow.channel_id c)) channel_df.

(** [transformed_df], up to the columns added from the date. *)
Definition transformed_df (raw_df : list Raw.t) (date_info : DateInfo.t)
    (now : Spark.timestamp) : list Row.t :=
  let exploded := exploded_df raw_df in
  let channel_df := channel_row <$> exploded in
  let videos_df := video_row <$> exploded in
  (fun p =>
     {| Row.video := snd (fst p);
        Row.channel := snd p;
        Row.year := DateInfo.year date_info;
        Row.month := DateInfo.month date_info;
        Row.day := DateInfo.day date_info;
        Row.processed_timestamp := now |}) <$> join videos_df channel_df.

Definition partition_of (r : Row.t) : partition :=
  (Row.year r, Row.month r, Row.day r).

(** [partitionBy("year", "month", "day")]: the rows of each
    partition, in their order. *)
Definition partitionBy (rows : list Row.t) : gmap partition (list Row.t) :=
  foldr (fun r m => <[partition_of r := r :: default [] (m !! partition_of r)]> m) ∅ rows.

Fixpoint lstrip_slash (l : list ascii) : list ascii :=
  match l with
  | c :: l' => if Ascii.eqb c "/" then lstrip_slash l' else l
  | [] => []
  end.

(** [path.rstrip('/')] *)
Definition rstrip_slash (path : string) : string :=
  Py.text (rev (lstrip_slash (rev (Py.chars path)))).

(** [.mode("overwrite").parquet(path)]: what was under [path] is
    removed, then the partitions are written. *)
Definition write_overwrite (rows : list Row.t) (path : string) (s : Store) : Store :=
  {| raw := raw s;
     tables := <[path := partitionBy rows]> (tables s);
     committed := committed s |}.

(** [spark.read.schema(expected_schema).json(input_path)] *)
Definition read_json (s : Store) (input_path : string) : Res (list Raw.t) :=
  match raw s !! input_path with
  | Some records => ok records
  | None => raise (AnalysisException ("Path does not exist: " +:+ input_path))
  end.

(** [transform_data], for the reading [current_time] of the clock in
    [get_date_paths] and the engine's [current_timestamp()].  An
    error is printed and raised again, so the result is the error. *)
Definition transform_data (current_time : Py.datetime) (now : Spark.timestamp)
    (input_path output_path : string) (s : Store) : Res Store :=
  let? raw_df := read_json s input_path in
  let? date_info := get_date_paths current_time in
  let rows := transformed_df raw_df date_info now in
  ok (write_overwrite rows (rstrip_slash output_path) s).

(** [main]: [started] is the reading of the clock when the paths are
    built. *)
Definition main (argv : gmap string string) (started current_time : Py.datetime)
    (now : Spark.timestamp) (s : Store) : Res Store :=
  let? job_name := subscript argv "JOB_NAME" in
  let? date_info := get_date_paths started in
  let input_path := "s3://iit-matrix-test/raw/" +:+ DateInfo.date_path date_info +:+ "/" in
  let output_path := "s3://iit-matrix-test/transform/" in
  let? s' := transform_data current_time now input_path output_path s in
  ok {| raw := raw s'; tables := tables s'; committed := true |}.
End Transform.

End Glue.


(** ** glue_job.py: the expected schema and its validation *)

Module Schema.

(** The engine's data types, as far as the job names them; a field of a
    struct has a name, a type and a nullability flag. *)
Inductive dtype : Type :=
| StringType
| LongType
| TimestampType
| ArrayType (element : dtype)
| StructType (fields : list field)
with field : Type :=
| StructField (name : string) (t : dtype) (nullable : bool).

Definition field_name (f : field) : string :=
  match f with
  | StructField name _ _ => name
  end.

Definition video_schema : dtype :=
  StructType [
    StructField "video_id" StringType true;
    StructField "title" StringType true;
    StructField "description" StringType true;
    StructField "published_at" StringType true;
    StructField "view_count" StringType true;
    StructField "like_count" StringType true;
    StructField "comment_count" StringType true;
    StructField "duration" StringType true ].

Definition channel_schema : dtype :=
  StructType [
    StructField "channel_id" StringType true;
    StructField "title" StringType true;
    StructField "description" StringType true;
    StructField "published_at" StringType true;
    StructField "view_count" StringType true;
    StructField "subscriber_count" StringType true;
    StructField "video_count" StringType true;
    StructField "playlist_id" StringType true ].

Definition get_expected_schema : dtype :=
  StructType [
    StructField "videos" (ArrayType video_schema) true;
    StructField "channel_info" channel_schema true ].

(** [schema.fieldNames()]: only a struct has field names. *)
Definition fieldNames (schema : dtype) : Res (list string) :=
  match schema with
  | StructType fields => ok (field_name <$> fields)
  | _ => raise (OtherError "object has no attribute 'fieldNames'")
  end.

(** What [validate_schema] prints. *)
Inductive printed : Type :=
| Warning
| MissingFields (fields : gset string)
| ExtraFields (fields : gset string)
| Completed
| ValidationError (e : exn).

(** A set is true when it is not empty. *)
Definition nonempty (s : gset string) : bool := negb (bool_decide (s = ∅)).

(** [validate_schema(df, expected_schema)], for the schema of [df]: the
    lines printed and the result.  An error is printed and raised
    again. *)
Definition validate_schema (df_schema expected_schema : dtype)
  : list printed * Res bool :=
  match (let? df_names := fieldNames df_schema in
         let? expected_names := fieldNames expected_schema in
         ok (df_names, expected_names)) with
  | inr (df_names, expected_names) =>
      let df_fields : gset string := list_to_set df_names in
      let expected_fields : gset string := list_to_set expected_names in
      let missing_fields := expected_fields ∖ df_fields in
      let extra_fields := df_fields ∖ expected_fields in
      (((if nonempty missing_fields || nonempty extra_fields then
           [Warning]
           ++ (if nonempty missing_fields then [MissingFields missing_fields] else [])
           ++ (if nonempty extra_fields then [ExtraFields extra_fields] else [])
         else [])
        ++ [Completed])%list,
       ok true)
  | inl e => ([ValidationError e], raise e)
  end.

End Schema.

(** * Specification-side definitions *)

(** A number below one hundred written with two digits. *)
Definition two_digits (n : Z) : string :=
  if n <? 10 then "0" +:+ Py.str n else Py.str n.

Definition date (y m d : Z) : Py.datetime :=
  {| Py.year := y; Py.month := m; Py.day := d;
     Py.hour := 0; Py.minute := 0; Py.second := 0; Py.microsecond := 0 |}.

Definition padded_ok (n : Z) : bool :=
  String.eqb (Py.zfill 2 (Py.str n)) (two_digits n)
  && match Py.int_str (two_digits n) with
     | inr z => z =? n
     | inl _ => false
     end
  && (String.length (two_digits n) =? 2)%nat.

(** A computation returns, rather than raises. *)
Definition returns {A} (r : Res A) : Prop := exists a, r = inr a.

(** A list of keyed elements is in descending order of the keys. *)
Definition descending {A} (l : list (Z * A)) : Prop :=
  StronglySorted (fun a b => fst b <= fst a) l.

Definition has_key {A} (k : Z) (p : Z * A) : bool := fst p =? k.

(** The view count the sort reads off a video, and off an entry of the
    top list. *)
Definition views (v : Lambda.Video.t) : Z :=
  match Py.int (Lambda.Video.view_count v) with
  | inr z => z
  | inl _ => 0
  end.

Definition top_views (e : Lambda.TopVideo.t) : Z :=
  match Py.int (Lambda.TopVideo.view_count e) with
  | inr z => z
  | inl _ => 0
  end.

(** Sample data for the extraction stage. *)
Definition test_channel : Lambda.Channel.t :=
  {| Lambda.Channel.channel_id := "UC0001";
     Lambda.Channel.title := "Test";
     Lambda.Channel.description := "";
     Lambda.Channel.published_at := "2020-01-01T00:00:00Z";
     Lambda.Channel.view_count := "1000";
     Lambda.Channel.subscriber_count := "100";
     Lambda.Channel.video_count := "5";
     Lambda.Channel.playlist_id := "UU0001" |}.

Definition a_video (id views published : string) : Lambda.Video.t :=
  {| Lambda.Video.video_id := id;
     Lambda.Video.title := id;
     Lambda.Video.description := "";
     Lambda.Video.published_at := published;
     Lambda.Video.view_count := Py.Str views;
     Lambda.Video.like_count := Py.Int 0;
     Lambda.Video.comment_count := Py.Int 0;
     Lambda.Video.duration := "PT1M" |}.

(** The state after an entry was written to the log. *)
Definition logged (entry : Lambda.log_entry) (s : Lambda.State) : Lambda.State :=
  {| Lambda.log := Lambda.log s ++ [entry];
     Lambda.objects := Lambda.objects s;
     Lambda.ticks := Lambda.ticks s |}.

(** The lookup of a channel gives no channel: it raised, or the upstream
    knows no such channel. *)
Definition lookup_fails (youtube : Lambda.YouTube) (channel : string) : Prop :=
  match Lambda.channel_info_body youtube channel with
  | inr (Some _) => False
  | _ => True
  end.

(** An upstream on which every call raises. *)
Definition failing_youtube (e : exn) : Lambda.YouTube :=
  {| Lambda.search_list := fun _ => raise e;
     Lambda.channels_list := fun _ => raise e;
     Lambda.playlistItems_list := fun _ _ _ => raise e;
     Lambda.videos_list := fun _ => raise e |}.

Definition test_env (youtube : Lambda.YouTube) : Lambda.Env :=
  {| Lambda.environ := {[ "YOUTUBE_API_KEY" := "key"; "S3_BUCKET_NAME" := "bucket" ]};
     Lambda.build := fun _ => ok youtube;
     Lambda.utc_clock := fun _ => date 2025 3 7;
     Lambda.put_object := fun _ _ => None |}.

Definition initial : Lambda.State :=
  {| Lambda.log := []; Lambda.objects := ∅; Lambda.ticks := 0 |}.

(** Sample data for the transformation stage. *)
Definition raw_channel (id title subscribers videos views : option string)
  : Glue.RawChannel.t :=
  {| Glue.RawChannel.channel_id := id;
     Glue.RawChannel.title := title;
     Glue.RawChannel.description := None;
     Glue.RawChannel.published_at := Some "2020-01-01T00:00:00Z";
     Glue.RawChannel.view_count := views;
     Glue.RawChannel.subscriber_count := subscribers;
     Glue.RawChannel.video_count := videos;
     Glue.RawChannel.playlist_id := None |}.

Definition raw_video (id views : option string) : Glue.RawVideo.t :=
  {| Glue.RawVideo.video_id := id;
     Glue.RawVideo.title := id;
     Glue.RawVideo.description := None;
     Glue.RawVideo.published_at := Some "2025-01-01T00:00:00Z";
     Glue.RawVideo.view_count := views;
     Glue.RawVideo.like_count := Some "3";
     Glue.RawVideo.comment_count := Some "1";
     Glue.RawVideo.duration := Some "PT1M" |}.

(** A reading of timestamps for the examples: the ISO form with [Z], as
    microseconds from 0001-01-01. *)
Definition iso_timestamp (s : option string) : option Spark.timestamp :=
  match s with
  | Some text =>
      match Py.strptime text with
      | inr t => Some (Py.micros t)
      | inl _ => None
      end
  | None => None
  end.

Definition in_partition (p : Glue.partition) (r : Glue.Row.t) : bool :=
  bool_decide (Glue.partition_of r = p).

(** The rows stored in a partition of the table under a path; none when
    the table or the partition is not there. *)
Definition partition_rows (s : Glue.Store) (path : string) (p : Glue.partition)
  : list Glue.Row.t :=
  match Glue.tables s !! path with
  | Some parts => default [] (parts !! p)
  | None => []
  end.

Definition erase_time (r : Glue.Row.t) : Glue.Row.t :=
  {| Glue.Row.video := Glue.Row.video r;
     Glue.Row.channel := Glue.Row.channel r;
     Glue.Row.year := Glue.Row.year r;
     Glue.Row.month := Glue.Row.month r;
     Glue.Row.day := Glue.Row.day r;
     Glue.Row.processed_timestamp := 0 |}.

Definition day_of (t : Py.datetime) : Glue.partition :=
  (Py.year t, Py.month t, Py.day t).

Definition store_of (path : string) (records : list Glue.Raw.t) : Glue.Store :=
  {| Glue.raw := {[ path := records ]}; Glue.tables := ∅; Glue.committed := false |}.

Definition test_record (views : option string) : Glue.Raw.t :=
  {| Glue.Raw.videos := [raw_video (Some "v1") views];
     Glue.Raw.channel_info :=
       raw_channel (Some "UC1") (Some "Test") (Some "100") (Some "5") (Some "1000") |}.

Definition noon (y m d : Z) : Py.datetime :=
  {| Py.year := y; Py.month := m; Py.day := d;
     Py.hour := 12; Py.minute := 0; Py.second := 0; Py.microsecond := 0 |}.

(** A store in which an earlier run has left a partition for
    2025-03-06 under ["out"]. *)
Definition day_before_rows : list Glue.Row.t :=
  Glue.transformed_df iso_timestamp [test_record (Some "50")]
    {| Glue.DateInfo.year := 2025; Glue.DateInfo.month := 3; Glue.DateInfo.day := 6;
       Glue.DateInfo.date_path := "year=2025/month=03/day=06" |} 0.

Definition store_after_day_before : Glue.Store :=
  {| Glue.raw := {[ "in" := [test_record (Some "50")] ]};
     Glue.tables := {[ "out" := Glue.partitionBy day_before_rows ]};
     Glue.committed := true |}.

Definition march_7 : Glue.DateInfo.t :=
  {| Glue.DateInfo.year := 2025; Glue.DateInfo.month := 3; Glue.DateInfo.day := 7;
     Glue.DateInfo.date_path := "year=2025/month=03/day=07" |}.

(** A character that can occur in the text of a number as the cast
    reads it: a digit, a sign, a decimal point, or a blank that is
    trimmed. *)
Definition numeric_char (c : ascii) : bool :=
  Py.is_digit c || Spark.is_blank c
  || Ascii.eqb c "." || Ascii.eqb c "+" || Ascii.eqb c "-".

(** A count that is not a number: a string with a character that cannot
    occur in one, as in ["abc"] or ["N/A"]. *)
Definition non_numeric (count : option string) : Prop :=
  exists s c, count = Some s /\ In c (Py.chars s) /\ numeric_char c = false.

(** The channel data and the item of the example, with no other field:
    in particular with no channel identifier. *)
Definition bare_test_record : Glue.Raw.t :=
  {| Glue.Raw.videos :=
       [ {| Glue.RawVideo.video_id := None;
            Glue.RawVideo.title := None;
            Glue.RawVideo.description := None;
            Glue.RawVideo.published_at := None;
            Glue.RawVideo.view_count := Some "50";
            Glue.RawVideo.like_count := None;
            Glue.RawVideo.comment_count := None;
            Glue.RawVideo.duration := None |} ];
     Glue.Raw.channel_info :=
       {| Glue.RawChannel.channel_id := None;
          Glue.RawChannel.title := Some "Test";
          Glue.RawChannel.description := None;
          Glue.RawChannel.published_at := None;
          Glue.RawChannel.view_count := Some "1000";
          Glue.RawChannel.subscriber_count := Some "100";
          Glue.RawChannel.video_count := Some "5";
          Glue.RawChannel.playlist_id := None |} |}.

(** The names of the top-level fields of a schema, as a set. *)
Definition field_names (fields : list Schema.field) : gset string :=
  list_to_set (Schema.field_name <$> fields).

(** The number of videos in a list of raw records. *)
Definition total_videos (records : list Glue.Raw.t) : nat :=
  sum_list ((fun r => List.length (Glue.Raw.videos r)) <$> records).

Definition date_info_of (t : Py.datetime) : Glue.DateInfo.t :=
  {| Glue.DateInfo.year := Py.year t;
     Glue.DateInfo.month := Py.month t;
     Glue.DateInfo.day := Py.day t;
     Glue.DateInfo.date_path :=
       "year=" +:+ Py.str (Py.year t)
       +:+ "/month=" +:+ two_digits (Py.month t)
       +:+ "/day=" +:+ two_digits (Py.day t) |}.

(** The paths [main] builds: the raw records of a day, and the root of
    the transformed table. *)
Definition raw_path (t : Py.datetime) : string :=
  "s3://iit-matrix-test/raw/" +:+ Glue.DateInfo.date_path (date_info_of t) +:+ "/".

Definition transform_root : string := "s3://iit-matrix-test/transform".

Definition record_of (id : option string) (videos : list Glue.RawVideo.t) : Glue.Raw.t :=
  {| Glue.Raw.videos := videos;
     Glue.Raw.channel_info := raw_channel id (Some "Test") (Some "100") (Some "5") (Some "1000") |}.

(** A store in which an earlier run has left rows under ["out"], and
    whose input now holds a record without videos. *)
Definition store_without_videos : Glue.Store :=
  {| Glue.raw := {[ "in" := [record_of (Some "UC1") []] ]};
     Glue.tables := {[ "out" := Glue.partitionBy day_before_rows ]};
     Glue.committed := false |}.

(** The store of a job that starts on 2025-03-07. *)
Definition store_of_march_7 : Glue.Store :=
  store_of (raw_path (date 2025 3 7)) [test_record (Some "50")].

(** A state of the handler that lost nothing of another one: the log
    was only extended, no object was removed, the clock was not turned
    back. *)
Definition grows (s s' : Lambda.State) : Prop :=
  Lambda.log s `prefix_of` Lambda.log s'
  /\ dom (Lambda.objects s) ⊆ dom (Lambda.objects s')
  /\ (Lambda.ticks s <= Lambda.ticks s')%nat.

(** A video counts for the month [k] when its creation time parses, is
    not before [twelve_months_ago] and falls in that month. *)
Definition in_month (twelve_months_ago : Z) (k : string) (v : Lambda.Video.t) : bool :=
  match Py.strptime (Lambda.Video.published_at v) with
  | inr d => (twelve_months_ago <=? Py.micros d) && String.eqb (Py.strftime_Y_m d) k
  | inl _ => false
  end.

Definition month_count (twelve_months_ago : Z) (videos : list Lambda.Video.t)
    (k : string) : Z :=
  Z.of_nat (List.length (List.filter (in_month twelve_months_ago k) videos)).

(** The key under which the handler stores a channel. *)
Definition object_key (title : string) (stamp : Py.datetime) : string :=
  "raw/" +:+ Py.replace " " "_" title +:+ "_" +:+ Py.strftime_stamp stamp +:+ ".json".

(** The state after the clock was read [n] times. *)
Definition ticked (n : nat) (s : Lambda.State) : Lambda.State :=
  {| Lambda.log := Lambda.log s;
     Lambda.objects := Lambda.objects s;
     Lambda.ticks := (n + Lambda.ticks s)%nat |}.

(** An upstream with one channel, whose listing is a single page. *)
Definition single_page {A} (l : list A) : Lambda.page A :=
  {| Lambda.items := Some l; Lambda.nextPageToken := None |}.

Definition a_channel_resource (statistics : gmap string string) : Lambda.ChannelResource.t :=
  {| Lambda.ChannelResource.id := Some "UC0001";
     Lambda.ChannelResource.snippet :=
       Some {[ "title" := "Test Channel"; "description" := "";
               "publishedAt" := "2020-01-01T00:00:00Z" ]};
     Lambda.ChannelResource.statistics := Some statistics;
     Lambda.ChannelResource.contentDetails :=
       Some {[ "relatedPlaylists" := {[ "uploads" := "UU0001" ]} ]} |}.

Definition a_playlist_item (id published : string) : Lambda.PlaylistItem.t :=
  {| Lambda.PlaylistItem.snippet :=
       Some {[ "title" := id; "description" := ""; "publishedAt" := published ]};
     Lambda.PlaylistItem.contentDetails := Some {[ "videoId" := id ]} |}.

Definition a_video_resource (views : string) : Lambda.VideoResource.t :=
  {| Lambda.VideoResource.statistics := Some {[ "viewCount" := views ]};
     Lambda.VideoResource.contentDetails := Some {[ "duration" := "PT1M" ]} |}.

Definition one_channel_youtube (statistics : gmap string string)
    (listing : Res (list Lambda.PlaylistItem.t))
    (resources : list Lambda.VideoResource.t) : Lambda.YouTube :=
  {| Lambda.search_list := fun _ =>
       ok (single_page [ {| Lambda.SearchResult.id := Some {[ "channelId" := "UC0001" ]} |} ]);
     Lambda.channels_list := fun _ => ok (single_page [a_channel_resource statistics]);
     Lambda.playlistItems_list := fun _ _ _ =>
       match listing with
       | inr l => ok (single_page l)
       | inl e => raise e
       end;
     Lambda.videos_list := fun _ => ok (single_page resources) |}.

Definition full_statistics : gmap string string :=
  {[ "viewCount" := "1000"; "subscriberCount" := "100"; "videoCount" := "5" ]}.

(** The channel that [one_channel_youtube full_statistics] describes. *)
Definition listed_channel : Lambda.Channel.t :=
  {| Lambda.Channel.channel_id := "UC0001";
     Lambda.Channel.title := "Test Channel";
     Lambda.Channel.description := "";
     Lambda.Channel.published_at := "2020-01-01T00:00:00Z";
     Lambda.Channel.view_count := "1000";
     Lambda.Channel.subscriber_count := "100";
     Lambda.Channel.video_count := "5";
     Lambda.Channel.playlist_id := "UU0001" |}.

(** An upstream whose listing returns no more items than asked for. *)
Definition honest_youtube (listing : list Lambda.PlaylistItem.t)
    (resources : list Lambda.VideoResource.t) : Lambda.YouTube :=
  {| Lambda.search_list := fun _ => raise (HttpError "notFound");
     Lambda.channels_list := fun _ => raise (HttpError "notFound");
     Lambda.playlistItems_list := fun _ n _ => ok (single_page (take (Z.to_nat n) listing));
     Lambda.videos_list := fun _ => ok (single_page resources) |}.

(** An upstream with one channel and one video, created at [published]. *)
Definition one_video_youtube (published : string) : Lambda.YouTube :=
  one_channel_youtube full_statistics
    (inr [a_playlist_item "v1" published]) [a_video_resource "7"].

(** An environment in which every upload fails with [e]. *)
Definition faulty_env (youtube : Lambda.YouTube) (e : exn) : Lambda.Env :=
  {| Lambda.environ := {[ "YOUTUBE_API_KEY" := "key"; "S3_BUCKET_NAME" := "bucket" ]};
     Lambda.build := fun _ => ok youtube;
     Lambda.utc_clock := fun _ => date 2025 3 7;
     Lambda.put_object := fun _ _ => Some e |}.

(** A computation of the handler under which the state only grows. *)
Definition keeps {A} (m : Lambda.M A) : Prop :=
  forall s, grows s (snd (m s)).

(** An upstream that knows no channel. *)
Definition empty_youtube : Lambda.YouTube :=
  {| Lambda.search_list := fun _ => ok (single_page []);
     Lambda.channels_list := fun _ => ok (single_page []);
     Lambda.playlistItems_list := fun _ _ _ => ok (single_page []);
     Lambda.videos_list := fun _ => ok (single_page []) |}.


Definition three_videos : list Lambda.Video.t :=
  [a_video "a" "5" "2025-01-01T00:00:00Z";
   a_video "b" "7" "2025-01-15T00:00:00Z";
   a_video "c" "9" "2023-01-01T00:00:00Z"].

(** * Properties *)

(** ** Partition paths *)

Lemma padded_ok_upto_31 : forallb padded_ok (seqZ 1 31) = true.
Proof. vm_compute. reflexivity. Qed.

Lemma zfill_two_digits (n : Z) :
  1 <= n <= 31 ->
  Py.zfill 2 (Py.str n) = two_digits n
  /\ Py.int_str (two_digits n) = ok n
  /\ String.length (two_digits n) = 2%nat.
Proof.
  intros Hn.
  assert (Hin : In n (seqZ 1 31)).
  { apply list_elem_of_In, elem_of_seqZ. lia. }
  pose proof (proj1 (forallb_forall padded_ok (seqZ 1 31)) padded_ok_upto_31 n Hin) as H.
  unfold padded_ok in H.
  apply andb_prop in H as [H Hlen]. apply andb_prop in H as [Hz Hi].
  apply String.eqb_eq in Hz. apply Nat.eqb_eq in Hlen.
  destruct (Py.int_str (two_digits n)) as [e|z]; [discriminate|].
  apply Z.eqb_eq in Hi. subst z. auto.
Qed.

Lemma get_date_paths_padded (t : Py.datetime) :
  1 <= Py.month t <= 12 ->
  1 <= Py.day t <= 31 ->
  Glue.get_date_paths t =
    ok {| Glue.DateInfo.year := Py.year t;
          Glue.DateInfo.month := Py.month t;
          Glue.DateInfo.day := Py.day t;
          Glue.DateInfo.date_path :=
            "year=" +:+ Py.str (Py.year t)
            +:+ "/month=" +:+ two_digits (Py.month t)
            +:+ "/day=" +:+ two_digits (Py.day t) |}.
Proof.
  intros Hm Hd.
  destruct (zfill_two_digits (Py.month t)) as (Zm & Im & Lm); [lia|].
  destruct (zfill_two_digits (Py.day t)) as (Zd & Id & Ld); [lia|].
  unfold Glue.get_date_paths. rewrite Zm, Zd, Im, Id. reflexivity.
Qed.

(** C7.  For a date with a month in 1..12 and a day in 1..31,
    [get_date_paths] returns the year, the month and the day as integers
    and the path ["year=Y/month=MM/day=DD"], in which month and day are
    written with two digits, padded with a zero; the result depends on
    the date only. *)
Theorem get_date_paths_zero_padded (t : Py.datetime) :
  1 <= Py.month t <= 12 ->
  1 <= Py.day t <= 31 ->
  Glue.get_date_paths t =
    ok {| Glue.DateInfo.year := Py.year t;
          Glue.DateInfo.month := Py.month t;
          Glue.DateInfo.day := Py.day t;
          Glue.DateInfo.date_path :=
            "year=" +:+ Py.str (Py.year t)
            +:+ "/month=" +:+ two_digits (Py.month t)
            +:+ "/day=" +:+ two_digits (Py.day t) |}
  /\ String.length (two_digits (Py.month t)) = 2%nat
  /\ String.length (two_digits (Py.day t)) = 2%nat.
Proof.
  intros Hm Hd. split; [now apply get_date_paths_padded|].
  split; apply zfill_two_digits; lia.
Qed.

(** The date (2025, 3, 7) gives ["year=2025/month=03/day=07"]. *)
Lemma get_date_paths_2025_03_07 :
  1 <= 3 <= 12 /\ 1 <= 7 <= 31 /\
  Glue.get_date_paths (date 2025 3 7) =
    ok {| Glue.DateInfo.year := 2025; Glue.DateInfo.month := 3; Glue.DateInfo.day := 7;
          Glue.DateInfo.date_path := "year=2025/month=03/day=07" |}.
Proof.
  split; [lia|]. split; [lia|].
  apply (get_date_paths_zero_padded (date 2025 3 7)); simpl; lia.
Defined.

(** ** The stable descending sort *)

Section SortDesc.
Context {A : Type}.
Implicit Types (x : Z * A) (l : list (Z * A)).

Lemma insert_desc_perm x l : Permutation (Py.insert_desc x l) (x :: l).
Proof.
  induction l as [|y l IH]; simpl; [reflexivity|].
  destruct (fst y <=? fst x); [reflexivity|].
  rewrite IH. apply perm_swap.
Qed.

Lemma sort_desc_perm l : Permutation (Py.sort_desc l) l.
Proof.
  induction l as [|x l IH]; simpl; [reflexivity|].
  rewrite insert_desc_perm. now constructor.
Qed.

Lemma insert_desc_descending x l :
  descending l -> descending (Py.insert_desc x l).
Proof.
  unfold descending. induction 1 as [|y l Hs IH Hy]; simpl.
  - repeat constructor.
  - destruct (Z.leb_spec (fst y) (fst x)) as [Hle|Hlt].
    + constructor; [now constructor|].
      constructor; [exact Hle|].
      eapply Forall_impl; [exact Hy|]. simpl. intros; lia.
    + constructor; [exact IH|].
      eapply Permutation_Forall; [symmetry; apply insert_desc_perm|].
      constructor; [lia|exact Hy].
Qed.

Lemma sort_desc_descending l : descending (Py.sort_desc l).
Proof.
  induction l as [|x l IH]; simpl; [constructor|].
  now apply insert_desc_descending.
Qed.

(** Stability: the elements with a given key keep their order. *)
Lemma insert_desc_keeps_order k x l :
  List.filter (has_key k) (Py.insert_desc x l) = List.filter (has_key k) (x :: l).
Proof.
  induction l as [|y l IH]; [reflexivity|].
  cbn [Py.insert_desc].
  destruct (Z.leb_spec (fst y) (fst x)) as [Hle|Hlt]; [reflexivity|].
  cbn [List.filter] in *. rewrite IH. unfold has_key.
  destruct (Z.eqb_spec (fst x) k), (Z.eqb_spec (fst y) k); try reflexivity; lia.
Qed.

Lemma sort_desc_stable k l :
  List.filter (has_key k) (Py.sort_desc l) = List.filter (has_key k) l.
Proof.
  induction l as [|x l IH]; [reflexivity|].
  cbn [Py.sort_desc]. rewrite insert_desc_keeps_order.
  cbn [List.filter]. now rewrite IH.
Qed.

Lemma descending_lookup l i j a b :
  descending l -> (i < j)%nat -> l !! i = Some a -> l !! j = Some b ->
  fst b <= fst a.
Proof.
  unfold descending. intros Hs. revert i j.
  induction Hs as [|y l Hs IH Hy]; intros i j Hij Hi Hj; [discriminate|].
  destruct j as [|j]; [lia|]. simpl in Hj.
  destruct i as [|i]; simpl in Hi.
  - injection Hi as <-. rewrite Forall_forall in Hy. apply Hy.
    eapply list_elem_of_lookup_2; eauto.
  - apply (IH i j); auto; lia.
Qed.
End SortDesc.

(** ** [mapM] *)

Lemma mapM_returns {A B} (f : A -> Res B) (g : A -> B) (l : list A) :
  Forall (fun a => f a = inr (g a)) l -> mapM f l = inr (g <$> l).
Proof.
  induction 1 as [|a l Ha _ IH]; [reflexivity|].
  cbn [mapM]. rewrite Ha. cbn [rbind]. rewrite IH. reflexivity.
Qed.

Lemma mapM_raises {A B} (f : A -> Res B) (l : list A) (a : A) :
  In a l -> (exists e, f a = inl e) -> exists e, mapM f l = inl e.
Proof.
  induction l as [|x l IH]; [contradiction|].
  intros [->|Hin] Ha; cbn [mapM].
  - destruct Ha as [e ->]. now exists e.
  - destruct (f x) as [e|y]; [now exists e|]. cbn [rbind].
    destruct (IH Hin Ha) as [e ->]. now exists e.
Qed.

Lemma zip_keys {A} (key : A -> Z) (l : list A) :
  zip (key <$> l) l = (fun a => (key a, a)) <$> l.
Proof. induction l as [|a l IH]; [reflexivity|]. cbn. now rewrite IH. Qed.

(** ** The analyzer *)

Lemma views_int (v : Lambda.Video.t) :
  returns (Py.int (Lambda.Video.view_count v)) ->
  Py.int (Lambda.Video.view_count v) = inr (views v).
Proof. unfold views. intros [z ->]. reflexivity. Qed.

Lemma sorted_reverse_views (videos : list Lambda.Video.t) :
  Forall (fun v => returns (Py.int (Lambda.Video.view_count v))) videos ->
  Py.sorted_reverse (fun x => Py.int (Lambda.Video.view_count x)) videos
  = inr (snd <$> Py.sort_desc ((fun v => (views v, v)) <$> videos)).
Proof.
  intros H. unfold Py.sorted_reverse.
  rewrite (mapM_returns _ views).
  - cbn [rbind]. now rewrite zip_keys.
  - eapply Forall_impl; [exact H|]. intros v Hv. now apply views_int.
Qed.

Lemma count_trends_returns (t12 : Z) (videos : list Lambda.Video.t) :
  Forall (fun v => returns (Py.strptime (Lambda.Video.published_at v))) videos ->
  forall m, returns (Lambda.count_trends t12 videos m).
Proof.
  induction 1 as [|v l [d Hd] _ IH]; intros m; cbn [Lambda.count_trends].
  - now exists m.
  - rewrite Hd. cbn [rbind]. apply IH.
Qed.

Lemma count_trends_raises (t12 : Z) (videos : list Lambda.Video.t) (v : Lambda.Video.t) :
  In v videos ->
  (exists e, Py.strptime (Lambda.Video.published_at v) = inl e) ->
  forall m, exists e, Lambda.count_trends t12 videos m = inl e.
Proof.
  induction videos as [|x l IH]; [contradiction|].
  intros [->|Hin] Hv m; cbn [Lambda.count_trends].
  - destruct Hv as [e ->]. now exists e.
  - destruct (Py.strptime (Lambda.Video.published_at x)) as [e|d]; [now exists e|].
    cbn [rbind]. now apply IH.
Qed.

Lemma keyed_sorted_fst (l : list Lambda.Video.t) (p : Z * Lambda.Video.t) :
  In p (Py.sort_desc ((fun v => (views v, v)) <$> l)) ->
  fst p = views (snd p) /\ In (snd p) l.
Proof.
  intros Hin.
  apply (Permutation_in _ (sort_desc_perm _)) in Hin.
  apply in_map_iff in Hin as (v & <- & Hv). auto.
Qed.

Lemma filter_fmap {A B} (f : B -> bool) (g : A -> B) (l : list A) :
  List.filter f (g <$> l) = g <$> List.filter (fun a => f (g a)) l.
Proof.
  induction l as [|a l IH]; [reflexivity|].
  cbn. destruct (f (g a)); cbn; now rewrite IH.
Qed.

Lemma filter_keyed (k : Z) (l : list (Z * Lambda.Video.t)) :
  (forall p, In p l -> fst p = views (snd p)) ->
  List.filter (fun v => views v =? k) (snd <$> l) = snd <$> List.filter (has_key k) l.
Proof.
  induction l as [|p l IH]; intros H; [reflexivity|].
  cbn. unfold has_key at 1. rewrite <- (H p (or_introl eq_refl)).
  rewrite IH by (intros q Hq; apply H; now right).
  now destruct (fst p =? k).
Qed.

(** C4 (as amended: descending, not strictly).  When [analyze_channel_data]
    returns, which it does when the time twelve months back is in range
    and every view count and creation timestamp parses, its top list has
    at most ten entries, every entry is built from an input video, the
    view counts do not increase along the list, and for every view count
    the entries with that count are the first input videos with that
    count, in input order. *)
Theorem top_videos_descending_stable (current_time : Py.datetime)
    (channel_data : Lambda.Channel.t) (videos_data : list Lambda.Video.t) :
  returns (Py.minus_days current_time 365) ->
  Forall (fun v => returns (Py.int (Lambda.Video.view_count v))) videos_data ->
  Forall (fun v => returns (Py.strptime (Lambda.Video.published_at v))) videos_data ->
  exists a,
    Lambda.analyze_channel_data current_time channel_data videos_data = inr a
    /\ (List.length (Lambda.Analysis.top_videos a) <= 10)%nat
    /\ (forall e, In e (Lambda.Analysis.top_videos a) ->
          exists v, In v videos_data /\ e = Lambda.top_video v
                    /\ Py.int (Lambda.TopVideo.view_count e) = inr (top_views e))
    /\ (forall i j e1 e2, (i < j)%nat ->
          Lambda.Analysis.top_videos a !! i = Some e1 ->
          Lambda.Analysis.top_videos a !! j = Some e2 ->
          top_views e2 <= top_views e1)
    /\ (forall k,
          List.filter (fun e => top_views e =? k) (Lambda.Analysis.top_videos a)
          `prefix_of`
          (Lambda.top_video <$> List.filter (fun v => views v =? k) videos_data)).
Proof.
  intros [t12 H12] Hint Htime.
  unfold Lambda.analyze_channel_data.
  rewrite H12, (sorted_reverse_views _ Hint). cbn [rbind].
  destruct (count_trends_returns t12 videos_data Htime ∅) as [trends ->].
  cbn [rbind]. eexists. split; [reflexivity|]. cbn [Lambda.Analysis.top_videos].
  set (keyed := (fun v => (views v, v)) <$> videos_data).
  assert (Hkey : forall p, In p (Py.sort_desc keyed) ->
                           fst p = views (snd p) /\ In (snd p) videos_data)
    by apply keyed_sorted_fst.
  assert (Hat : forall i e,
             (Lambda.top_video <$> take 10 (snd <$> Py.sort_desc keyed)) !! i = Some e ->
             exists p, Py.sort_desc keyed !! i = Some p /\ e = Lambda.top_video (snd p)).
  { intros i e He. rewrite list_lookup_fmap in He.
    destruct (take 10 (snd <$> Py.sort_desc keyed) !! i) as [v|] eqn:Hv; [|discriminate].
    injection He as <-. apply lookup_take_Some in Hv as [Hv _].
    rewrite list_lookup_fmap in Hv.
    destruct (Py.sort_desc keyed !! i) as [p|]; [|discriminate].
    injection Hv as <-. now exists p. }
  repeat split.
  - rewrite length_fmap, length_take. lia.
  - intros e He. apply list_elem_of_In, list_elem_of_lookup in He as [i He].
    destruct (Hat i e He) as (p & Hp & ->).
    apply list_elem_of_lookup_2, list_elem_of_In, Hkey in Hp as [_ Hin].
    exists (snd p). repeat split; [exact Hin|].
    rewrite Forall_forall in Hint. apply views_int, Hint, list_elem_of_In, Hin.
  - intros i j e1 e2 Hij H1 H2.
    destruct (Hat i e1 H1) as (p1 & Hp1 & ->), (Hat j e2 H2) as (p2 & Hp2 & ->).
    change (views (snd p2) <= views (snd p1)).
    pose proof (descending_lookup _ _ _ _ _ (sort_desc_descending keyed) Hij Hp1 Hp2) as Hle.
    apply list_elem_of_lookup_2, list_elem_of_In, Hkey in Hp1 as [<- _].
    apply list_elem_of_lookup_2, list_elem_of_In, Hkey in Hp2 as [<- _].
    exact Hle.
  - intros k.
    exists (Lambda.top_video <$>
              (snd <$> List.filter (has_key k) (drop 10 (Py.sort_desc keyed)))).
    rewrite <- fmap_take.
    rewrite (filter_fmap (fun e => top_views e =? k) Lambda.top_video).
    change (fun a => top_views (Lambda.top_video a) =? k) with (fun v => views v =? k).
    rewrite filter_keyed.
    2:{ intros p Hp. apply Hkey. apply list_elem_of_In.
        apply list_elem_of_In in Hp. apply elem_of_take in Hp as (i & Hi & _).
        eapply list_elem_of_lookup_2; eauto. }
    rewrite <- fmap_app, <- fmap_app, <- List.filter_app, take_drop.
    rewrite sort_desc_stable. unfold keyed.
    rewrite (filter_fmap (has_key k)). rewrite <- list_fmap_compose.
    f_equal. induction (List.filter _ videos_data) as [|v l IH]; [reflexivity|].
    cbn. now rewrite <- IH.
Qed.

Lemma top_videos_descending_stable_witness :
  let videos := [a_video "a" "5" "2025-01-01T00:00:00Z";
                 a_video "b" "7" "2025-02-01T00:00:00Z";
                 a_video "c" "5" "2024-12-01T00:00:00Z"] in
  exists a,
    Lambda.analyze_channel_data (date 2025 3 7) test_channel videos = inr a
    /\ (List.length (Lambda.Analysis.top_videos a) <= 10)%nat
    /\ (forall e, In e (Lambda.Analysis.top_videos a) ->
          exists v, In v videos /\ e = Lambda.top_video v
                    /\ Py.int (Lambda.TopVideo.view_count e) = inr (top_views e))
    /\ (forall i j e1 e2, (i < j)%nat ->
          Lambda.Analysis.top_videos a !! i = Some e1 ->
          Lambda.Analysis.top_videos a !! j = Some e2 ->
          top_views e2 <= top_views e1)
    /\ (forall k,
          List.filter (fun e => top_views e =? k) (Lambda.Analysis.top_videos a)
          `prefix_of`
          (Lambda.top_video <$> List.filter (fun v => views v =? k) videos)).
Proof.
  intros videos.
  apply (top_videos_descending_stable (date 2025 3 7) test_channel videos).
  - eexists. vm_compute. reflexivity.
  - repeat constructor; eexists; vm_compute; reflexivity.
  - repeat constructor; eexists; vm_compute; reflexivity.
Defined.

(** Two videos with the same view count are both in the top list, next
    to each other: the list is not strictly descending. *)
Lemma top_videos_tie_not_strict :
  exists a e1 e2,
    Lambda.analyze_channel_data (date 2025 3 7) test_channel
      [a_video "a" "5" "2025-01-01T00:00:00Z"; a_video "b" "5" "2025-02-01T00:00:00Z"]
    = inr a
    /\ Lambda.Analysis.top_videos a !! 0%nat = Some e1
    /\ Lambda.Analysis.top_videos a !! 1%nat = Some e2
    /\ Lambda.TopVideo.video_id e1 = "a" /\ Lambda.TopVideo.video_id e2 = "b"
    /\ ~ (top_views e2 < top_views e1).
Proof.
  eexists. eexists. eexists.
  split; [vm_compute; reflexivity|].
  split; [reflexivity|]. split; [reflexivity|].
  split; [reflexivity|]. split; [reflexivity|].
  vm_compute. discriminate.
Qed.

(** A malformed creation timestamp in one item makes the analyzer raise:
    there is no summary for the other item either. *)
Lemma analyze_malformed_timestamp_raises :
  Lambda.analyze_channel_data (date 2025 3 7) test_channel
    [a_video "a" "5" "2025-01-01T00:00:00Z"; a_video "b" "7" "yesterday"]
  = raise (Py.bad_time "yesterday").
Proof. vm_compute. reflexivity. Qed.

(** C3 (as amended).  When the creation timestamp of some item does not
    parse, [analyze_channel_data] raises: the item is not skipped and no
    summary is produced. *)
Theorem analyze_aborts_on_malformed_timestamp (current_time : Py.datetime)
    (channel_data : Lambda.Channel.t) (videos_data : list Lambda.Video.t)
    (video : Lambda.Video.t) :
  In video videos_data ->
  (exists e, Py.strptime (Lambda.Video.published_at video) = inl e) ->
  exists e, Lambda.analyze_channel_data current_time channel_data videos_data = inl e.
Proof.
  intros Hin Hbad. unfold Lambda.analyze_channel_data.
  destruct (Py.minus_days current_time 365) as [e|t12]; [now exists e|].
  cbn [rbind].
  destruct (Py.sorted_reverse _ videos_data) as [e|sorted]; [now exists e|].
  cbn [rbind].
  destruct (count_trends_raises t12 videos_data video Hin Hbad ∅) as [e ->].
  now exists e.
Qed.

Lemma analyze_aborts_on_malformed_timestamp_witness :
  exists e,
    Lambda.analyze_channel_data (date 2025 3 7) test_channel
      [a_video "a" "5" "2025-01-01T00:00:00Z"; a_video "b" "7" "yesterday"] = inl e.
Proof.
  apply (analyze_aborts_on_malformed_timestamp _ _ _ (a_video "b" "7" "yesterday")).
  - simpl. right. left. reflexivity.
  - eexists. vm_compute. reflexivity.
Defined.

(** ** The extraction loop *)

Lemma get_channel_info_raised youtube channel e s :
  Lambda.channel_info_body youtube channel = inl e ->
  Lambda.get_channel_info youtube channel s
  = (Lambda.Ret None, logged (Lambda.ErrorChannelInfo e) s).
Proof.
  intros H. unfold Lambda.get_channel_info, Lambda.try_except, Lambda.lift.
  rewrite H. reflexivity.
Qed.

Lemma get_channel_info_returned youtube channel r s :
  Lambda.channel_info_body youtube channel = inr r ->
  Lambda.get_channel_info youtube channel s = (Lambda.Ret r, s).
Proof.
  intros H. unfold Lambda.get_channel_info, Lambda.try_except, Lambda.lift.
  rewrite H. reflexivity.
Qed.

Lemma process_channel_lookup_raised fuel env youtube bucket channel e s :
  Lambda.channel_info_body youtube channel = inl e ->
  Lambda.process_channel fuel env youtube bucket channel s
  = (Lambda.Ret tt, logged (Lambda.ErrorChannelInfo e) s).
Proof.
  intros H. unfold Lambda.process_channel, Lambda.bind.
  rewrite (get_channel_info_raised _ _ _ _ H). reflexivity.
Qed.

Lemma process_channel_lookup_fails fuel env youtube bucket channel s :
  lookup_fails youtube channel ->
  exists s', Lambda.process_channel fuel env youtube bucket channel s = (Lambda.Ret tt, s')
             /\ Lambda.objects s' = Lambda.objects s.
Proof.
  unfold lookup_fails. intros H.
  destruct (Lambda.channel_info_body youtube channel) as [e|[c|]] eqn:Hb; [|contradiction|].
  - rewrite (process_channel_lookup_raised _ _ _ _ _ _ _ Hb). eauto.
  - unfold Lambda.process_channel, Lambda.bind.
    rewrite (get_channel_info_returned _ _ _ _ Hb). eauto.
Qed.

Lemma for_channels_lookups_fail fuel env youtube bucket cs :
  (forall c, In c cs -> lookup_fails youtube c) ->
  forall s, exists s',
    Lambda.for_channels fuel env youtube bucket cs s = (Lambda.Ret tt, s')
    /\ Lambda.objects s' = Lambda.objects s.
Proof.
  induction cs as [|c cs IH]; intros H s.
  - exists s. split; reflexivity.
  - destruct (process_channel_lookup_fails fuel env youtube bucket c s) as (s1 & H1 & O1).
    { apply H. now left. }
    destruct (IH (fun c' Hc' => H c' (or_intror Hc')) s1) as (s2 & H2 & O2).
    exists s2. cbn [Lambda.for_channels]. unfold Lambda.bind at 1.
    rewrite H1, H2. split; [reflexivity|congruence].
Qed.

(** C8.  [get_channel_info] never raises.  When the lookup of a channel
    raises, the error is logged and the result is [None]; in the loop of
    the handler the channel is skipped and the loop goes on with the
    channels that remain, from a state that differs in the log only. *)
Theorem get_channel_info_fails_soft (fuel : nat) (env : Lambda.Env)
    (youtube : Lambda.YouTube) (bucket channel : string) (rest : list string)
    (e : exn) (s : Lambda.State) :
  Lambda.channel_info_body youtube channel = inl e ->
  Lambda.get_channel_info youtube channel s
    = (Lambda.Ret None, logged (Lambda.ErrorChannelInfo e) s)
  /\ Lambda.for_channels fuel env youtube bucket (channel :: rest) s
     = Lambda.for_channels fuel env youtube bucket rest
         (logged (Lambda.ErrorChannelInfo e) s)
  /\ (forall c s0, exists r s1,
        Lambda.get_channel_info youtube c s0 = (Lambda.Ret r, s1)).
Proof.
  intros H. split; [now apply get_channel_info_raised|]. split.
  - cbn [Lambda.for_channels]. unfold Lambda.bind at 1.
    now rewrite (process_channel_lookup_raised _ _ _ _ _ _ _ H).
  - intros c s0.
    destruct (Lambda.channel_info_body youtube c) as [e'|r] eqn:Hb.
    + rewrite (get_channel_info_raised _ _ _ _ Hb). eauto.
    + rewrite (get_channel_info_returned _ _ _ _ Hb). eauto.
Qed.

Lemma get_channel_info_fails_soft_witness :
  let youtube := failing_youtube (HttpError "quotaExceeded") in
  let e := HttpError "quotaExceeded" in
  Lambda.get_channel_info youtube "@zaobaodotsg" initial
    = (Lambda.Ret None, logged (Lambda.ErrorChannelInfo e) initial)
  /\ Lambda.for_channels 5 (test_env youtube) youtube "bucket"
       ["@zaobaodotsg"; "@BeritaHarianSG1957"] initial
     = Lambda.for_channels 5 (test_env youtube) youtube "bucket"
         ["@BeritaHarianSG1957"] (logged (Lambda.ErrorChannelInfo e) initial)
  /\ (forall c s0, exists r s1,
        Lambda.get_channel_info youtube c s0 = (Lambda.Ret r, s1)).
Proof.
  intros youtube e.
  apply (get_channel_info_fails_soft 5 (test_env youtube) youtube "bucket"
           "@zaobaodotsg" ["@BeritaHarianSG1957"] e initial).
  reflexivity.
Defined.

(** C10.  The handler never raises.  It answers 200 exactly when the
    body of its [try] block runs to the end, 500 exactly when an
    exception escapes from it (a variable missing from the environment,
    an exception out of the loop).  In particular, when both variables
    are set, the client is built and the lookup of every channel fails,
    the answer is 200 and no object was written. *)
Theorem lambda_handler_status (fuel : nat) (env : Lambda.Env) (s : Lambda.State) :
  match Lambda.handler_body fuel env s with
  | (Lambda.Ret _, s') =>
      Lambda.lambda_handler fuel env s
      = (Lambda.Ret {| Lambda.statusCode := 200; Lambda.body_ := Lambda.Completed |}, s')
  | (Lambda.Raise e, s') =>
      Lambda.lambda_handler fuel env s
      = (Lambda.Ret {| Lambda.statusCode := 500; Lambda.body_ := Lambda.Error e |},
         logged (Lambda.ErrorLambda e) s')
  | (Lambda.Diverge, s') => Lambda.lambda_handler fuel env s = (Lambda.Diverge, s')
  end
  /\ (forall key bucket youtube,
        Lambda.environ env !! "YOUTUBE_API_KEY" = Some key ->
        Lambda.environ env !! "S3_BUCKET_NAME" = Some bucket ->
        Lambda.build env key = inr youtube ->
        (forall c, In c Lambda.channels -> lookup_fails youtube c) ->
        exists s',
          Lambda.lambda_handler fuel env s
          = (Lambda.Ret {| Lambda.statusCode := 200; Lambda.body_ := Lambda.Completed |}, s')
          /\ Lambda.objects s' = Lambda.objects s)
  /\ (Lambda.environ env !! "YOUTUBE_API_KEY" = None ->
        Lambda.lambda_handler fuel env s
        = (Lambda.Ret {| Lambda.statusCode := 500;
                         Lambda.body_ := Lambda.Error (KeyError "YOUTUBE_API_KEY") |},
           logged (Lambda.ErrorLambda (KeyError "YOUTUBE_API_KEY")) s)).
Proof.
  assert (Hstatus :
    match Lambda.handler_body fuel env s with
    | (Lambda.Ret _, s') =>
        Lambda.lambda_handler fuel env s
        = (Lambda.Ret {| Lambda.statusCode := 200; Lambda.body_ := Lambda.Completed |}, s')
    | (Lambda.Raise e, s') =>
        Lambda.lambda_handler fuel env s
        = (Lambda.Ret {| Lambda.statusCode := 500; Lambda.body_ := Lambda.Error e |},
           logged (Lambda.ErrorLambda e) s')
    | (Lambda.Diverge, s') => Lambda.lambda_handler fuel env s = (Lambda.Diverge, s')
    end).
  { unfold Lambda.lambda_handler, Lambda.try_except, Lambda.bind.
    destruct (Lambda.handler_body fuel env s) as [[[]|e|] s']; reflexivity. }
  split; [exact Hstatus|]. split.
  - intros key bucket youtube Hkey Hbucket Hbuild Hfail.
    destruct (for_channels_lookups_fail fuel env youtube bucket _ Hfail s) as (s' & Hloop & Hobj).
    exists s'. split; [|exact Hobj].
    assert (Hbody : Lambda.handler_body fuel env s = (Lambda.Ret tt, s')).
    { unfold Lambda.handler_body, Lambda.bind, Lambda.lift, subscript.
      rewrite Hkey, Hbucket. cbn [getitem ok]. rewrite Hbuild. exact Hloop. }
    rewrite Hbody in Hstatus. exact Hstatus.
  - intros Hnone.
    assert (Hbody : Lambda.handler_body fuel env s
                    = (Lambda.Raise (KeyError "YOUTUBE_API_KEY"), s)).
    { unfold Lambda.handler_body, Lambda.bind, Lambda.lift, subscript.
      rewrite Hnone. reflexivity. }
    rewrite Hbody in Hstatus. exact Hstatus.
Qed.

Lemma lambda_handler_status_witness :
  let env := test_env (failing_youtube (HttpError "quotaExceeded")) in
  exists s',
    Lambda.lambda_handler 5 env initial
    = (Lambda.Ret {| Lambda.statusCode := 200; Lambda.body_ := Lambda.Completed |}, s')
    /\ Lambda.objects s' = Lambda.objects initial.
Proof.
  intros env.
  apply (proj1 (proj2 (lambda_handler_status 5 env initial))
           "key" "bucket" (failing_youtube (HttpError "quotaExceeded"))).
  - vm_compute. reflexivity.
  - vm_compute. reflexivity.
  - reflexivity.
  - intros c Hc. simpl in Hc.
    destruct Hc as [<-|[<-|[<-|[<-|[<-|[]]]]]]; exact I.
Defined.

(** ** The cast of a text that is not a number *)

Lemma numeric_char_false (c : ascii) :
  numeric_char c = false ->
  Py.is_digit c = false /\ Spark.is_blank c = false
  /\ Ascii.eqb c "." = false /\ Ascii.eqb c "+" = false /\ Ascii.eqb c "-" = false.
Proof.
  unfold numeric_char. intros H.
  repeat (apply orb_false_elim in H as [H ?]). auto.
Qed.

Lemma ltrim_keeps (c : ascii) (l : list ascii) :
  Spark.is_blank c = false -> In c l -> In c (Spark.ltrim l).
Proof.
  intros Hc. induction l as [|x l IH]; [contradiction|].
  intros Hin. cbn [Spark.ltrim].
  destruct (Spark.is_blank x) eqn:Hx; [|exact Hin].
  destruct Hin as [->|Hin]; [congruence|now apply IH].
Qed.

Lemma trim_keeps (c : ascii) (l : list ascii) :
  Spark.is_blank c = false -> In c l -> In c (Spark.trim l).
Proof.
  intros Hc Hin. unfold Spark.trim.
  apply (ltrim_keeps c _ Hc) in Hin. apply in_rev in Hin.
  apply (ltrim_keeps c _ Hc) in Hin. apply in_rev in Hin. exact Hin.
Qed.

Lemma integral_stops (c : ascii) (l : list ascii) :
  Py.is_digit c = false -> Ascii.eqb c "." = false -> In c l ->
  forall acc,
    match Spark.integral acc l with
    | Some (_, fraction) => forallb Py.is_digit fraction = false
    | None => True
    end.
Proof.
  intros Hd Hp. induction l as [|x l IH]; [contradiction|].
  intros Hin acc. cbn [Spark.integral].
  destruct (Ascii.eqb x ".") eqn:Hx.
  - destruct Hin as [->|Hin]; [congruence|].
    apply not_true_is_false. intros Hall.
    rewrite forallb_forall in Hall. specialize (Hall c Hin). congruence.
  - destruct (Py.is_digit x) eqn:Hdx; [|exact I].
    destruct Hin as [->|Hin]; [congruence|]. now apply IH.
Qed.

(** A text with a character that cannot occur in a number casts to
    NULL. *)
Lemma string_to_long_non_numeric (s : string) (c : ascii) :
  In c (Py.chars s) -> numeric_char c = false -> Spark.string_to_long s = None.
Proof.
  intros Hin Hc.
  destruct (numeric_char_false c Hc) as (Hd & Hb & Hp & Hplus & Hminus).
  unfold Spark.string_to_long.
  pose proof (trim_keeps c _ Hb Hin) as Ht.
  destruct (Spark.trim (Py.chars s)) as [|x rest]; [reflexivity|].
  set (digits := if Ascii.eqb x "-" || Ascii.eqb x "+" then rest else x :: rest).
  assert (Hdigits : In c digits).
  { unfold digits. destruct (Ascii.eqb x "-" || Ascii.eqb x "+") eqn:Hsign; [|exact Ht].
    destruct Ht as [->|Ht]; [|exact Ht].
    rewrite Hminus, Hplus in Hsign. discriminate. }
  destruct digits as [|y digits']; [reflexivity|].
  pose proof (integral_stops c _ Hd Hp Hdigits 0) as Hi.
  destruct (Spark.integral 0 (y :: digits')) as [[v fraction]|]; [|reflexivity].
  now rewrite Hi.
Qed.

Lemma cast_long_non_numeric (count : option string) :
  non_numeric count -> Spark.cast_long count = None.
Proof.
  intros (s & c & -> & Hin & Hc). now apply (string_to_long_non_numeric s c).
Qed.

Lemma abc_non_numeric : non_numeric (Some "abc").
Proof. exists "abc", "a"%char. repeat split. now left. Qed.

(** ** The transformation *)

Section Transformer.
Context (to_timestamp : option string -> option Spark.timestamp).

Lemma partitionBy_lookup (rows : list Glue.Row.t) (p : Glue.partition) :
  Glue.partitionBy rows !! p
  = match List.filter (in_partition p) rows with
    | [] => None
    | found => Some found
    end.
Proof.
  induction rows as [|r rows IH]; [reflexivity|].
  cbn [Glue.partitionBy foldr List.filter].
  fold (Glue.partitionBy rows).
  rewrite lookup_insert.
  destruct (decide (Glue.partition_of r = p)) as [E|Hne].
  - replace (in_partition p r) with true
      by (symmetry; apply bool_decide_eq_true_2; exact E).
    rewrite E, IH. now destruct (List.filter (in_partition p) rows).
  - replace (in_partition p r) with false
      by (symmetry; apply bool_decide_eq_false_2; exact Hne).
    exact IH.
Qed.

Lemma transformed_df_partition raw_df date_info now r :
  In r (Glue.transformed_df to_timestamp raw_df date_info now) ->
  Glue.partition_of r
  = (Glue.DateInfo.year date_info, Glue.DateInfo.month date_info,
     Glue.DateInfo.day date_info).
Proof.
  unfold Glue.transformed_df. intros H.
  apply in_map_iff in H as (p & <- & _). reflexivity.
Qed.

Lemma filter_all {A} (f : A -> bool) (l : list A) :
  (forall a, In a l -> f a = true) -> List.filter f l = l.
Proof.
  induction l as [|a l IH]; intros H; [reflexivity|].
  cbn. rewrite (H a (or_introl eq_refl)). f_equal. apply IH.
  intros b Hb. apply H. now right.
Qed.

Lemma filter_none {A} (f : A -> bool) (l : list A) :
  (forall a, In a l -> f a = false) -> List.filter f l = [].
Proof.
  induction l as [|a l IH]; intros H; [reflexivity|].
  cbn. rewrite (H a (or_introl eq_refl)). apply IH.
  intros b Hb. apply H. now right.
Qed.

(** What a run leaves under the output path. *)
Lemma transform_data_written current_time now input_path output_path s records date_info :
  Glue.raw s !! input_path = Some records ->
  Glue.get_date_paths current_time = inr date_info ->
  Glue.transform_data to_timestamp current_time now input_path output_path s
  = inr (Glue.write_overwrite
           (Glue.transformed_df to_timestamp records date_info now)
           (Glue.rstrip_slash output_path) s).
Proof.
  intros Hraw Hdate. unfold Glue.transform_data, Glue.read_json.
  rewrite Hraw. cbn [rbind ok]. rewrite Hdate. reflexivity.
Qed.

Lemma transform_data_inv current_time now input_path output_path s s' :
  Glue.transform_data to_timestamp current_time now input_path output_path s = inr s' ->
  exists records date_info,
    Glue.raw s !! input_path = Some records
    /\ Glue.get_date_paths current_time = inr date_info
    /\ s' = Glue.write_overwrite
              (Glue.transformed_df to_timestamp records date_info now)
              (Glue.rstrip_slash output_path) s.
Proof.
  unfold Glue.transform_data, Glue.read_json. intros H.
  destruct (Glue.raw s !! input_path) as [records|]; [|discriminate].
  cbn [rbind ok] in H.
  destruct (Glue.get_date_paths current_time) as [e|date_info]; [discriminate|].
  cbn [rbind ok] in H. injection H as <-. eauto.
Qed.

Lemma get_date_paths_day current_time date_info :
  Glue.get_date_paths current_time = inr date_info ->
  1 <= Py.month current_time <= 12 ->
  1 <= Py.day current_time <= 31 ->
  (Glue.DateInfo.year date_info, Glue.DateInfo.month date_info,
   Glue.DateInfo.day date_info) = day_of current_time.
Proof.
  intros H Hm Hd.
  rewrite (get_date_paths_padded current_time Hm Hd) in H. injection H as <-. reflexivity.
Qed.

Lemma get_date_paths_same_day t1 t2 :
  day_of t1 = day_of t2 -> Glue.get_date_paths t1 = Glue.get_date_paths t2.
Proof.
  unfold day_of. intros H. injection H as Hy Hm Hd.
  unfold Glue.get_date_paths. now rewrite Hy, Hm, Hd.
Qed.

Lemma partition_rows_written rows path s p :
  partition_rows (Glue.write_overwrite rows path s) path p
  = List.filter (in_partition p) rows.
Proof.
  unfold partition_rows, Glue.write_overwrite. cbn [Glue.tables].
  rewrite lookup_insert_eq, partitionBy_lookup.
  now destruct (List.filter (in_partition p) rows).
Qed.

Lemma transformed_df_time raw_df date_info now :
  erase_time <$> Glue.transformed_df to_timestamp raw_df date_info now
  = Glue.transformed_df to_timestamp raw_df date_info 0.
Proof.
  unfold Glue.transformed_df. rewrite <- list_fmap_compose. reflexivity.
Qed.

Lemma filter_erase_time p rows :
  erase_time <$> List.filter (in_partition p) rows
  = List.filter (in_partition p) (erase_time <$> rows).
Proof. now rewrite (filter_fmap (in_partition p) erase_time). Qed.

Lemma join_all_match (key : string)
    (videos_df : list (option string * Glue.VideoRow.t))
    (channel_df : list Glue.ChannelRow.t) :
  (forall v, In v videos_df -> fst v = Some key) ->
  (forall c, In c channel_df -> Glue.ChannelRow.channel_id c = Some key) ->
  List.length (Glue.join videos_df channel_df)
  = (List.length videos_df * List.length channel_df)%nat.
Proof.
  intros Hv Hc. unfold Glue.join.
  induction videos_df as [|v l IH]; [reflexivity|].
  cbn [mbind list_bind]. rewrite length_app, length_fmap.
  rewrite IH by (intros w Hw; apply Hv; now right).
  rewrite filter_all; [reflexivity|].
  intros c Hin. rewrite (Hv v (or_introl eq_refl)), (Hc c Hin).
  cbn. apply String.eqb_refl.
Qed.

(** A record with [n] videos gives [n * n] rows: [channel_df] is taken
    from the exploded frame, so it holds the channel once per video,
    and every video row joins with each of these. *)
Lemma single_record_row_count (r : Glue.Raw.t) (key : string) date_info now :
  Glue.RawChannel.channel_id (Glue.Raw.channel_info r) = Some key ->
  List.length (Glue.transformed_df to_timestamp [r] date_info now)
  = (List.length (Glue.Raw.videos r) * List.length (Glue.Raw.videos r))%nat.
Proof.
  intros Hid. unfold Glue.transformed_df.
  rewrite length_fmap, (join_all_match key).
  - rewrite !length_fmap. unfold Glue.exploded_df. cbn [mbind list_bind].
    now rewrite app_nil_r, length_fmap.
  - intros v Hv. apply in_map_iff in Hv as (e & <- & He).
    unfold Glue.exploded_df in He. cbn [mbind list_bind] in He.
    rewrite app_nil_r in He. apply in_map_iff in He as (x & <- & _). exact Hid.
  - intros c Hc. apply in_map_iff in Hc as (e & <- & He).
    unfold Glue.exploded_df in He. cbn [mbind list_bind] in He.
    rewrite app_nil_r in He. apply in_map_iff in He as (x & <- & _). exact Hid.
Qed.

Lemma transformed_df_keeps (records : list Glue.Raw.t) (r : Glue.Raw.t)
    (v : Glue.RawVideo.t) (key : string) date_info now :
  In r records -> In v (Glue.Raw.videos r) ->
  Glue.RawChannel.channel_id (Glue.Raw.channel_info r) = Some key ->
  exists row,
    In row (Glue.transformed_df to_timestamp records date_info now)
    /\ Glue.Row.video row = snd (Glue.video_row to_timestamp (Glue.Raw.channel_info r, v))
    /\ Glue.Row.channel row = Glue.channel_row to_timestamp (Glue.Raw.channel_info r, v).
Proof.
  intros Hr Hv Hid.
  set (e := (Glue.Raw.channel_info r, v)).
  assert (He : e ∈ Glue.exploded_df records).
  { unfold Glue.exploded_df. apply list_elem_of_bind. exists r.
    split; [|now apply list_elem_of_In].
    apply list_elem_of_fmap. exists v. split; [reflexivity|now apply list_elem_of_In]. }
  exists {| Glue.Row.video := snd (Glue.video_row to_timestamp e);
            Glue.Row.channel := Glue.channel_row to_timestamp e;
            Glue.Row.year := Glue.DateInfo.year date_info;
            Glue.Row.month := Glue.DateInfo.month date_info;
            Glue.Row.day := Glue.DateInfo.day date_info;
            Glue.Row.processed_timestamp := now |}.
  split; [|split; reflexivity].
  unfold Glue.transformed_df.
  apply in_map_iff.
  exists (Glue.video_row to_timestamp e, Glue.channel_row to_timestamp e).
  split; [reflexivity|].
  apply list_elem_of_In. unfold Glue.join. apply list_elem_of_bind.
  exists (Glue.video_row to_timestamp e).
  split; [|apply list_elem_of_fmap; now exists e].
  apply list_elem_of_fmap. exists (Glue.channel_row to_timestamp e).
  split; [reflexivity|]. apply list_elem_of_In, filter_In. split.
  - apply list_elem_of_In, list_elem_of_fmap. now exists e.
  - cbn. rewrite Hid. cbn. apply String.eqb_refl.
Qed.

(** C5 (as amended: the channel has an identifier).  A channel with an
    identifier, title "Test", 100 subscribers, 5 videos and 1000 views
    and a single video with 50 views give one row, whose
    [subscriber_count] is the integer 100, whose [video_count] is 5,
    whose channel-level [view_count] is 1000 and whose item-level
    [view_count] is 50, whatever the other fields hold. *)
Theorem test_channel_row_counts (id : string)
    (description published playlist : option string)
    (video_id title video_description video_published likes comments duration
       : option string)
    (date_info : Glue.DateInfo.t) (now : Spark.timestamp) :
  exists row,
    Glue.transformed_df to_timestamp
      [ {| Glue.Raw.videos :=
             [ {| Glue.RawVideo.video_id := video_id;
                  Glue.RawVideo.title := title;
                  Glue.RawVideo.description := video_description;
                  Glue.RawVideo.published_at := video_published;
                  Glue.RawVideo.view_count := Some "50";
                  Glue.RawVideo.like_count := likes;
                  Glue.RawVideo.comment_count := comments;
                  Glue.RawVideo.duration := duration |} ];
           Glue.Raw.channel_info :=
             {| Glue.RawChannel.channel_id := Some id;
                Glue.RawChannel.title := Some "Test";
                Glue.RawChannel.description := description;
                Glue.RawChannel.published_at := published;
                Glue.RawChannel.view_count := Some "1000";
                Glue.RawChannel.subscriber_count := Some "100";
                Glue.RawChannel.video_count := Some "5";
                Glue.RawChannel.playlist_id := playlist |} |} ]
      date_info now = [row]
    /\ Glue.ChannelRow.subscriber_count (Glue.Row.channel row) = Some 100
    /\ Glue.ChannelRow.video_count (Glue.Row.channel row) = Some 5
    /\ Glue.ChannelRow.view_count (Glue.Row.channel row) = Some 1000
    /\ Glue.VideoRow.view_count (Glue.Row.video row) = Some 50
    /\ Glue.ChannelRow.channel_title (Glue.Row.channel row) = Some "Test".
Proof.
  eexists. split.
  - unfold Glue.transformed_df, Glue.join, Glue.exploded_df.
    cbn [mbind list_bind fmap list_fmap app Glue.Raw.videos Glue.Raw.channel_info
         List.filter Glue.video_row Glue.channel_row fst snd
         Glue.RawChannel.channel_id Glue.ChannelRow.channel_id Spark.sql_eq].
    rewrite String.eqb_refl. cbn [fmap list_fmap app]. reflexivity.
  - repeat split; vm_compute; reflexivity.
Qed.

(** C6 (as amended: the same rows up to the processing time).  When a
    run for some day has succeeded, a second run for the same day on the
    same input succeeds too.  After it every partition under the output
    path holds the rows that the second run computed from the input,
    and nothing else; these are the rows of the first run, up to the
    processing time.  With the same processing time the second run
    leaves the store as the first one did. *)
Theorem transform_twice_same_day (current_time1 current_time2 : Py.datetime)
    (now1 now2 : Spark.timestamp) (input_path output_path : string)
    (s s1 : Glue.Store) :
  day_of current_time1 = day_of current_time2 ->
  Glue.transform_data to_timestamp current_time1 now1 input_path output_path s = inr s1 ->
  exists s2 records date_info,
    Glue.transform_data to_timestamp current_time2 now2 input_path output_path s1 = inr s2
    /\ Glue.raw s !! input_path = Some records
    /\ Glue.get_date_paths current_time2 = inr date_info
    /\ (forall p,
          partition_rows s2 (Glue.rstrip_slash output_path) p
          = List.filter (in_partition p)
              (Glue.transformed_df to_timestamp records date_info now2))
    /\ (forall p,
          erase_time <$> partition_rows s2 (Glue.rstrip_slash output_path) p
          = erase_time <$> partition_rows s1 (Glue.rstrip_slash output_path) p)
    /\ (now1 = now2 -> s2 = s1).
Proof.
  intros Hday H1.
  apply transform_data_inv in H1 as (records & date_info & Hraw & Hdate & ->).
  rewrite (get_date_paths_same_day _ _ Hday) in Hdate.
  eexists. exists records, date_info.
  split; [apply transform_data_written; [exact Hraw|exact Hdate]|].
  split; [exact Hraw|]. split; [exact Hdate|]. split; [|split].
  - intros p. apply partition_rows_written.
  - intros p. rewrite !partition_rows_written, !filter_erase_time.
    now rewrite !transformed_df_time.
  - intros <-. unfold Glue.write_overwrite. cbn [Glue.raw Glue.tables Glue.committed].
    now rewrite insert_insert_eq.
Qed.

(** C9.  After a run, the table under the output path has no partition
    for any day other than the day of the run: whatever was stored
    there for other days before the run is gone. *)
Theorem overwrite_removes_other_partitions (current_time : Py.datetime)
    (now : Spark.timestamp) (input_path output_path : string)
    (s s' : Glue.Store) (p : Glue.partition) :
  1 <= Py.month current_time <= 12 ->
  1 <= Py.day current_time <= 31 ->
  Glue.transform_data to_timestamp current_time now input_path output_path s = inr s' ->
  p <> day_of current_time ->
  exists parts,
    Glue.tables s' !! Glue.rstrip_slash output_path = Some parts
    /\ parts !! p = None.
Proof.
  intros Hm Hd H Hp.
  apply transform_data_inv in H as (records & date_info & Hraw & Hdate & ->).
  eexists. split.
  - unfold Glue.write_overwrite. cbn [Glue.tables]. apply lookup_insert_eq.
  - rewrite partitionBy_lookup, filter_none; [reflexivity|].
    intros r Hr. apply transformed_df_partition in Hr.
    rewrite (get_date_paths_day _ _ Hdate Hm Hd) in Hr.
    apply bool_decide_eq_false_2. congruence.
Qed.

(** C2 (as amended).  A count that is not a number is read as NULL and
    nothing is raised: when the input can be read, the run returns, and
    every video of a record with a channel identifier has a row in the
    partition of the day.  The row carries the casts of the fields of
    the video, and each of [view_count], [like_count] and
    [comment_count] is NULL in it when the string holds a character that
    cannot occur in a number. *)
Theorem non_numeric_count_becomes_null (current_time : Py.datetime)
    (now : Spark.timestamp) (input_path output_path : string)
    (s : Glue.Store) (records : list Glue.Raw.t) :
  1 <= Py.month current_time <= 12 ->
  1 <= Py.day current_time <= 31 ->
  Glue.raw s !! input_path = Some records ->
  exists s',
    Glue.transform_data to_timestamp current_time now input_path output_path s = inr s'
    /\ forall r v key,
         In r records -> In v (Glue.Raw.videos r) ->
         Glue.RawChannel.channel_id (Glue.Raw.channel_info r) = Some key ->
         exists row,
           In row (partition_rows s' (Glue.rstrip_slash output_path) (day_of current_time))
           /\ Glue.Row.video row
              = snd (Glue.video_row to_timestamp (Glue.Raw.channel_info r, v))
           /\ (non_numeric (Glue.RawVideo.view_count v) ->
               Glue.VideoRow.view_count (Glue.Row.video row) = None)
           /\ (non_numeric (Glue.RawVideo.like_count v) ->
               Glue.VideoRow.like_count (Glue.Row.video row) = None)
           /\ (non_numeric (Glue.RawVideo.comment_count v) ->
               Glue.VideoRow.comment_count (Glue.Row.video row) = None).
Proof.
  intros Hm Hd Hraw.
  pose proof (get_date_paths_padded current_time Hm Hd) as Hdate.
  eexists. split; [apply transform_data_written; [exact Hraw|exact Hdate]|].
  intros r v key Hr Hv Hid.
  destruct (transformed_df_keeps records r v key
              {| Glue.DateInfo.year := Py.year current_time;
                 Glue.DateInfo.month := Py.month current_time;
                 Glue.DateInfo.day := Py.day current_time;
                 Glue.DateInfo.date_path :=
                   "year=" +:+ Py.str (Py.year current_time)
                   +:+ "/month=" +:+ two_digits (Py.month current_time)
                   +:+ "/day=" +:+ two_digits (Py.day current_time) |}
              now Hr Hv Hid)
    as (row & Hin & Hvideo & _).
  exists row. split; [|split; [exact Hvideo|]].
  - rewrite partition_rows_written. apply filter_In. split; [exact Hin|].
    apply bool_decide_eq_true_2.
    now rewrite (transformed_df_partition _ _ _ _ Hin).
  - rewrite Hvideo. cbn [snd Glue.video_row Glue.VideoRow.view_count
                          Glue.VideoRow.like_count Glue.VideoRow.comment_count].
    repeat split; apply cast_long_non_numeric.
Qed.
End Transformer.

(** The channel data and the item of the example alone, without a
    channel identifier, give no row at all: the join drops the item. *)
Lemma test_channel_without_id_no_row :
  Glue.RawChannel.title (Glue.Raw.channel_info bare_test_record) = Some "Test"
  /\ Glue.RawChannel.subscriber_count (Glue.Raw.channel_info bare_test_record) = Some "100"
  /\ Glue.RawChannel.video_count (Glue.Raw.channel_info bare_test_record) = Some "5"
  /\ Glue.RawChannel.view_count (Glue.Raw.channel_info bare_test_record) = Some "1000"
  /\ Glue.RawVideo.view_count <$> Glue.Raw.videos bare_test_record = [Some "50"]
  /\ Glue.transformed_df iso_timestamp [bare_test_record] march_7 0 = [].
Proof. repeat split. Qed.

(** C1.  A record with one channel and two videos gives four rows, two
    for each video, where one row for each video is expected. *)
Theorem two_videos_four_rows :
  let r := {| Glue.Raw.videos := [raw_video (Some "v1") (Some "10");
                                  raw_video (Some "v2") (Some "20")];
              Glue.Raw.channel_info :=
                raw_channel (Some "UC1") (Some "Test") (Some "100") (Some "2") (Some "30") |} in
  let rows := Glue.transformed_df iso_timestamp [r]
                {| Glue.DateInfo.year := 2025; Glue.DateInfo.month := 3;
                   Glue.DateInfo.day := 7;
                   Glue.DateInfo.date_path := "year=2025/month=03/day=07" |} 0 in
  List.length rows = 4%nat
  /\ (fun row => Glue.VideoRow.video_id (Glue.Row.video row)) <$> rows
     = [Some "v1"; Some "v1"; Some "v2"; Some "v2"].
Proof. vm_compute. split; reflexivity. Qed.

Lemma transform_twice_same_day_witness :
  let s := store_of "in" [test_record (Some "50")] in
  exists s1 s2 records date_info,
    Glue.transform_data iso_timestamp (date 2025 3 7) 10 "in" "out/" s = inr s1
    /\ Glue.transform_data iso_timestamp (noon 2025 3 7) 20 "in" "out/" s1 = inr s2
    /\ Glue.raw s !! "in" = Some records
    /\ Glue.get_date_paths (noon 2025 3 7) = inr date_info
    /\ (forall p,
          partition_rows s2 (Glue.rstrip_slash "out/") p
          = List.filter (in_partition p)
              (Glue.transformed_df iso_timestamp records date_info 20))
    /\ (forall p,
          erase_time <$> partition_rows s2 (Glue.rstrip_slash "out/") p
          = erase_time <$> partition_rows s1 (Glue.rstrip_slash "out/") p)
    /\ (10 = 20 -> s2 = s1).
Proof.
  intros s.
  assert (H1 : Glue.transform_data iso_timestamp (date 2025 3 7) 10 "in" "out/" s
               = inr (Glue.write_overwrite
                        (Glue.transformed_df iso_timestamp [test_record (Some "50")] march_7 10)
                        "out" s))
    by (vm_compute; reflexivity).
  destruct (transform_twice_same_day iso_timestamp (date 2025 3 7) (noon 2025 3 7)
              10 20 "in" "out/" s _ eq_refl H1)
    as (s2 & records & date_info & H2 & Hraw & Hd & Hrows & Hsame & Hidem).
  eexists. exists s2, records, date_info.
  split; [exact H1|]. split; [exact H2|]. split; [exact Hraw|].
  split; [exact Hd|]. split; [exact Hrows|]. split; [exact Hsame|exact Hidem].
Defined.

(** Two runs on the same day at different times leave different rows in
    the partition of the day: the rows carry the time of the run. *)
Lemma second_run_changes_processed_timestamp :
  exists s1 s2,
    Glue.transform_data iso_timestamp (date 2025 3 7) 10 "in" "out/"
      (store_of "in" [test_record (Some "50")]) = inr s1
    /\ Glue.transform_data iso_timestamp (noon 2025 3 7) 20 "in" "out/" s1 = inr s2
    /\ (Glue.Row.processed_timestamp <$> partition_rows s1 "out" (2025, 3, 7)) = [10]
    /\ (Glue.Row.processed_timestamp <$> partition_rows s2 "out" (2025, 3, 7)) = [20]
    /\ partition_rows s2 "out" (2025, 3, 7) <> partition_rows s1 "out" (2025, 3, 7).
Proof.
  eexists. eexists.
  split; [vm_compute; reflexivity|].
  split; [vm_compute; reflexivity|].
  split; [vm_compute; reflexivity|].
  split; [vm_compute; reflexivity|].
  vm_compute. discriminate.
Qed.

Lemma overwrite_removes_other_partitions_witness :
  partition_rows store_after_day_before "out" (2025, 3, 6) = day_before_rows
  /\ day_before_rows <> []
  /\ exists s' parts,
       Glue.transform_data iso_timestamp (date 2025 3 7) 0 "in" "out/"
         store_after_day_before = inr s'
       /\ Glue.tables s' !! Glue.rstrip_slash "out/" = Some parts
       /\ parts !! (2025, 3, 6) = None.
Proof.
  split; [vm_compute; reflexivity|]. split; [vm_compute; discriminate|].
  assert (H1 : Glue.transform_data iso_timestamp (date 2025 3 7) 0 "in" "out/"
                 store_after_day_before
               = inr (Glue.write_overwrite
                        (Glue.transformed_df iso_timestamp [test_record (Some "50")] march_7 0)
                        "out" store_after_day_before))
    by (vm_compute; reflexivity).
  destruct (overwrite_removes_other_partitions iso_timestamp (date 2025 3 7) 0
              "in" "out/" store_after_day_before _ (2025, 3, 6)
              ltac:(simpl; lia) ltac:(simpl; lia) H1 ltac:(discriminate))
    as (parts & Hparts & Hnone).
  eexists. exists parts. split; [exact H1|]. split; [exact Hparts|exact Hnone].
Defined.

(** The count "abc" of an item raises nothing: the run returns and the
    row of the item is written, with NULL for the count. *)
Lemma malformed_count_is_written_as_null :
  exists s' row,
    Glue.transform_data iso_timestamp (date 2025 3 7) 0 "in" "out/"
      (store_of "in" [test_record (Some "abc")]) = inr s'
    /\ partition_rows s' "out" (2025, 3, 7) = [row]
    /\ Glue.VideoRow.video_id (Glue.Row.video row) = Some "v1"
    /\ Glue.VideoRow.view_count (Glue.Row.video row) = None
    /\ Glue.VideoRow.like_count (Glue.Row.video row) = Some 3.
Proof.
  eexists. eexists.
  split; [vm_compute; reflexivity|].
  split; [vm_compute; reflexivity|].
  repeat split.
Qed.

Lemma non_numeric_count_becomes_null_witness :
  non_numeric (Some "abc")
  /\ exists s',
    Glue.transform_data iso_timestamp (date 2025 3 7) 0 "in" "out/"
      (store_of "in" [test_record (Some "abc")]) = inr s'
    /\ forall r v key,
         In r [test_record (Some "abc")] -> In v (Glue.Raw.videos r) ->
         Glue.RawChannel.channel_id (Glue.Raw.channel_info r) = Some key ->
         exists row,
           In row (partition_rows s' (Glue.rstrip_slash "out/") (day_of (date 2025 3 7)))
           /\ Glue.Row.video row
              = snd (Glue.video_row iso_timestamp (Glue.Raw.channel_info r, v))
           /\ (non_numeric (Glue.RawVideo.view_count v) ->
               Glue.VideoRow.view_count (Glue.Row.video row) = None)
           /\ (non_numeric (Glue.RawVideo.like_count v) ->
               Glue.VideoRow.like_count (Glue.Row.video row) = None)
           /\ (non_numeric (Glue.RawVideo.comment_count v) ->
               Glue.VideoRow.comment_count (Glue.Row.video row) = None).
Proof.
  split; [exact abc_non_numeric|].
  apply (non_numeric_count_becomes_null iso_timestamp (date 2025 3 7) 0 "in" "out/"
           (store_of "in" [test_record (Some "abc")]) [test_record (Some "abc")]).
  - simpl; lia.
  - simpl; lia.
  - reflexivity.
Defined.

(** * Further properties of the transformation stage *)

(** ** Schema validation *)

Lemma nonempty_false (s : gset string) : Schema.nonempty s = false <-> s = ∅.
Proof.
  unfold Schema.nonempty. rewrite negb_false_iff. apply bool_decide_eq_true.
Qed.

Lemma differences_empty (a b : gset string) :
  b ∖ a = ∅ /\ a ∖ b = ∅ <-> a = b.
Proof.
  split.
  - intros [H1 H2]. apply set_eq. intros x.
    assert (Ha : x ∉ b ∖ a) by (rewrite H1; apply not_elem_of_empty).
    assert (Hb : x ∉ a ∖ b) by (rewrite H2; apply not_elem_of_empty).
    rewrite elem_of_difference in Ha, Hb.
    destruct (decide (x ∈ a)), (decide (x ∈ b)); tauto.
  - intros ->. split; apply set_eq; intros x;
      rewrite elem_of_difference; split; [tauto|intros H; now apply not_elem_of_empty in H
                                          |tauto|intros H; now apply not_elem_of_empty in H].
Qed.

(** X1.  [validate_schema] is advisory: for two struct schemas it
    returns [True] and ends with the completion line, whatever the
    fields are.  It prints a warning exactly when the two sets of
    top-level field names differ; the types, the nullability, the order
    and the nested fields play no part. *)
Theorem validate_schema_advisory (df_fields expected_fields : list Schema.field) :
  exists lines,
    Schema.validate_schema (Schema.StructType df_fields) (Schema.StructType expected_fields)
    = ((lines ++ [Schema.Completed])%list, ok true)
    /\ (In Schema.Warning lines <-> field_names df_fields <> field_names expected_fields)
    /\ (field_names df_fields = field_names expected_fields -> lines = []).
Proof.
  unfold Schema.validate_schema. cbn [Schema.fieldNames rbind ok].
  fold (field_names df_fields). fold (field_names expected_fields).
  set (a := field_names df_fields). set (b := field_names expected_fields).
  eexists. split; [reflexivity|].
  destruct (Schema.nonempty (b ∖ a) || Schema.nonempty (a ∖ b)) eqn:Hor.
  - assert (Hne : a <> b).
    { intros E. apply differences_empty in E as [Hm He].
      apply nonempty_false in Hm, He. rewrite Hm, He in Hor. discriminate. }
    split; [split; [intros _; exact Hne|intros _; now left]|].
    intros E. contradiction.
  - apply orb_false_elim in Hor as [Hm He].
    apply nonempty_false in Hm, He.
    assert (E : a = b) by now apply differences_empty.
    split; [split; [intros []|intros Hne; contradiction]|reflexivity].
Qed.

(** ** The join, the write and the job *)

Section TransformerMore.
Context (to_timestamp : option string -> option Spark.timestamp).

Lemma exploded_df_length (records : list Glue.Raw.t) :
  List.length (Glue.exploded_df records) = total_videos records.
Proof.
  unfold Glue.exploded_df, total_videos.
  induction records as [|r l IH]; [reflexivity|].
  cbn [mbind list_bind fmap list_fmap sum_list sum_list_with].
  rewrite length_app, length_fmap. f_equal. exact IH.
Qed.

Lemma exploded_df_in (records : list Glue.Raw.t) (e : Glue.RawChannel.t * Glue.RawVideo.t) :
  In e (Glue.exploded_df records) <->
  exists r, In r records /\ In (snd e) (Glue.Raw.videos r) /\ fst e = Glue.Raw.channel_info r.
Proof.
  unfold Glue.exploded_df. rewrite <- list_elem_of_In, list_elem_of_bind.
  split.
  - intros (r & He & Hr). apply list_elem_of_fmap in He as (v & -> & Hv).
    exists r. apply list_elem_of_In in Hr. apply list_elem_of_In in Hv. auto.
  - intros (r & Hr & Hv & Hc). exists r.
    apply list_elem_of_In in Hr. apply list_elem_of_In in Hv.
    split; [|exact Hr]. apply list_elem_of_fmap. exists (snd e).
    split; [|exact Hv]. rewrite <- Hc. now destruct e.
Qed.

Lemma exploded_df_no_videos (records : list Glue.Raw.t) :
  (forall r, In r records -> Glue.Raw.videos r = []) ->
  Glue.exploded_df records = [].
Proof.
  intros Hno. unfold Glue.exploded_df.
  induction records as [|r l IH]; [reflexivity|].
  cbn [mbind list_bind]. rewrite (Hno r (or_introl eq_refl)). cbn.
  apply IH. intros r' Hr'. apply Hno. now right.
Qed.

(** Where a row of the joined frame comes from. *)
Lemma transformed_df_origin (records : list Glue.Raw.t) date_info now (row : Glue.Row.t) :
  In row (Glue.transformed_df to_timestamp records date_info now) ->
  exists r v r' v' key,
    In r records /\ In v (Glue.Raw.videos r)
    /\ In r' records /\ In v' (Glue.Raw.videos r')
    /\ Glue.RawChannel.channel_id (Glue.Raw.channel_info r) = Some key
    /\ Glue.RawChannel.channel_id (Glue.Raw.channel_info r') = Some key
    /\ Glue.Row.video row = snd (Glue.video_row to_timestamp (Glue.Raw.channel_info r, v))
    /\ Glue.Row.channel row = Glue.channel_row to_timestamp (Glue.Raw.channel_info r', v').
Proof.
  unfold Glue.transformed_df. intros H.
  apply in_map_iff in H as ([vr cr] & <- & Hj).
  unfold Glue.join in Hj.
  apply list_elem_of_In, list_elem_of_bind in Hj as (vr' & Hc & Hv).
  apply list_elem_of_fmap in Hc as (c & Heq & Hc). injection Heq as -> ->.
  apply list_elem_of_In, filter_In in Hc as [Hc Hkey].
  apply list_elem_of_In, in_map_iff in Hv as (e & <- & He).
  apply in_map_iff in Hc as (e' & <- & He').
  apply exploded_df_in in He as (r & Hr & Hv & Hci).
  apply exploded_df_in in He' as (r' & Hr' & Hv' & Hci').
  destruct e as [c v], e' as [c' v']. cbn [fst snd] in *. subst c c'.
  cbn in Hkey.
  destruct (Glue.RawChannel.channel_id (Glue.Raw.channel_info r)) as [k|] eqn:Hk;
    [|discriminate].
  destruct (Glue.RawChannel.channel_id (Glue.Raw.channel_info r')) as [k'|] eqn:Hk';
    [|discriminate].
  apply String.eqb_eq in Hkey. subst k'.
  exists r, v, r', v', k. cbn. rewrite Hk. auto 10.
Qed.

(** X2.  Every row of the joined frame pairs the columns of a video of
    some record with the channel columns of a record that has the same
    channel identifier, and that identifier is not NULL. *)
Theorem joined_row_origin (records : list Glue.Raw.t) (date_info : Glue.DateInfo.t)
    (now : Spark.timestamp) (row : Glue.Row.t) :
  In row (Glue.transformed_df to_timestamp records date_info now) ->
  exists r v r' v' key,
    In r records /\ In v (Glue.Raw.videos r)
    /\ In r' records /\ In v' (Glue.Raw.videos r')
    /\ Glue.RawChannel.channel_id (Glue.Raw.channel_info r) = Some key
    /\ Glue.RawChannel.channel_id (Glue.Raw.channel_info r') = Some key
    /\ Glue.Row.video row = snd (Glue.video_row to_timestamp (Glue.Raw.channel_info r, v))
    /\ Glue.Row.channel row = Glue.channel_row to_timestamp (Glue.Raw.channel_info r', v')
    /\ Glue.ChannelRow.channel_id (Glue.Row.channel row) = Some key.
Proof.
  intros H.
  destruct (transformed_df_origin _ _ _ _ H)
    as (r & v & r' & v' & key & Hr & Hv & Hr' & Hv' & Hk & Hk' & Hvid & Hch).
  exists r, v, r', v', key. repeat (split; [assumption|]).
  rewrite Hch. exact Hk'.
Qed.

(** X3.  The videos of records without a channel identifier are
    dropped: when no record has one, the joined frame is empty. *)
Theorem no_channel_id_no_rows (records : list Glue.Raw.t) (date_info : Glue.DateInfo.t)
    (now : Spark.timestamp) :
  (forall r, In r records ->
             Glue.RawChannel.channel_id (Glue.Raw.channel_info r) = None) ->
  Glue.transformed_df to_timestamp records date_info now = [].
Proof.
  intros Hnone.
  destruct (Glue.transformed_df to_timestamp records date_info now) as [|row rows] eqn:E;
    [reflexivity|].
  assert (Hin : In row (Glue.transformed_df to_timestamp records date_info now))
    by (rewrite E; now left).
  destruct (transformed_df_origin _ _ _ _ Hin)
    as (r & _ & _ & _ & key & Hr & _ & _ & _ & Hk & _).
  rewrite (Hnone r Hr) in Hk. discriminate.
Qed.

(** X4.  When all records carry the same channel identifier, the joined
    frame has as many rows as the square of the number of videos: each
    video is paired with the channel once for every video. *)
Theorem same_channel_rows_squared (records : list Glue.Raw.t) (key : string)
    (date_info : Glue.DateInfo.t) (now : Spark.timestamp) :
  (forall r, In r records ->
             Glue.RawChannel.channel_id (Glue.Raw.channel_info r) = Some key) ->
  List.length (Glue.transformed_df to_timestamp records date_info now)
  = (total_videos records * total_videos records)%nat.
Proof.
  intros Hkey. unfold Glue.transformed_df.
  rewrite length_fmap, (join_all_match key).
  - now rewrite !length_fmap, exploded_df_length.
  - intros v Hv. apply in_map_iff in Hv as (e & <- & He).
    apply exploded_df_in in He as (r & Hr & _ & Hc). cbn. rewrite Hc. now apply Hkey.
  - intros c Hc. apply in_map_iff in Hc as (e & <- & He).
    apply exploded_df_in in He as (r & Hr & _ & Hc). cbn. rewrite Hc. now apply Hkey.
Qed.

(** X6.  A run whose input holds no video succeeds and leaves an empty
    table under the output path: the partitions written by earlier runs
    are removed and nothing takes their place. *)
Theorem run_without_videos_empties_table (current_time : Py.datetime)
    (now : Spark.timestamp) (input_path output_path : string)
    (s : Glue.Store) (records : list Glue.Raw.t) :
  1 <= Py.month current_time <= 12 ->
  1 <= Py.day current_time <= 31 ->
  Glue.raw s !! input_path = Some records ->
  (forall r, In r records -> Glue.Raw.videos r = []) ->
  exists s',
    Glue.transform_data to_timestamp current_time now input_path output_path s = inr s'
    /\ Glue.tables s' !! Glue.rstrip_slash output_path = Some ∅
    /\ (forall p, partition_rows s' (Glue.rstrip_slash output_path) p = []).
Proof.
  intros Hm Hd Hraw Hno.
  pose proof (get_date_paths_padded current_time Hm Hd) as Hdate.
  assert (Hrows : forall date_info,
             Glue.transformed_df to_timestamp records date_info now = []).
  { intros date_info. apply length_zero_iff_nil.
    unfold Glue.transformed_df, Glue.join.
    rewrite (exploded_df_no_videos records Hno). reflexivity. }
  eexists. split; [apply transform_data_written; [exact Hraw|exact Hdate]|].
  rewrite Hrows. split.
  - unfold Glue.write_overwrite. cbn [Glue.tables]. apply lookup_insert_eq.
  - intros p. rewrite partition_rows_written. reflexivity.
Qed.

(** X7.  With the job name among the arguments and raw records under the
    path of the day on which the job starts, [main] reads that path,
    writes under [s3://iit-matrix-test/transform] and commits.  All rows
    go to the partition of the day read inside [transform_data], also
    when that is no longer the day on which the job started. *)
Theorem main_reads_writes_commits (argv : gmap string string)
    (started current_time : Py.datetime) (now : Spark.timestamp)
    (s : Glue.Store) (job_name : string) (records : list Glue.Raw.t) :
  1 <= Py.month started <= 12 -> 1 <= Py.day started <= 31 ->
  1 <= Py.month current_time <= 12 -> 1 <= Py.day current_time <= 31 ->
  argv !! "JOB_NAME" = Some job_name ->
  Glue.raw s !! raw_path started = Some records ->
  exists s',
    Glue.main to_timestamp argv started current_time now s = inr s'
    /\ Glue.committed s' = true
    /\ Glue.raw s' = Glue.raw s
    /\ partition_rows s' transform_root (day_of current_time)
       = Glue.transformed_df to_timestamp records (date_info_of current_time) now
    /\ (forall p, p <> day_of current_time -> partition_rows s' transform_root p = []).
Proof.
  intros Hm Hd Hm' Hd' Hjob Hraw.
  unfold Glue.main, subscript. rewrite Hjob. cbn [getitem rbind ok].
  rewrite (get_date_paths_padded started Hm Hd). cbn [rbind ok Glue.DateInfo.date_path].
  change ("s3://iit-matrix-test/raw/" +:+ _ +:+ "/") with (raw_path started).
  rewrite (transform_data_written to_timestamp current_time now _ _ s records
             (date_info_of current_time) Hraw (get_date_paths_padded _ Hm' Hd')).
  cbn [rbind ok]. eexists. split; [reflexivity|].
  split; [reflexivity|]. split; [reflexivity|].
  change (Glue.rstrip_slash "s3://iit-matrix-test/transform/") with transform_root.
  assert (Hpart : forall p,
    partition_rows
      {| Glue.raw := Glue.raw s;
         Glue.tables := <[transform_root :=
                           Glue.partitionBy
                             (Glue.transformed_df to_timestamp records
                                (date_info_of current_time) now)]> (Glue.tables s);
         Glue.committed := true |} transform_root p
    = List.filter (in_partition p)
        (Glue.transformed_df to_timestamp records (date_info_of current_time) now)).
  { intros p. unfold partition_rows. cbn [Glue.tables].
    rewrite lookup_insert_eq, partitionBy_lookup.
    now destruct (List.filter (in_partition p) _). }
  split.
  - cbn [Glue.write_overwrite Glue.raw Glue.tables]. rewrite Hpart.
    apply filter_all. intros r Hr. apply bool_decide_eq_true_2.
    now rewrite (transformed_df_partition _ _ _ _ _ Hr).
  - intros p Hp. cbn [Glue.write_overwrite Glue.raw Glue.tables]. rewrite Hpart.
    apply filter_none. intros r Hr. apply bool_decide_eq_false_2.
    rewrite (transformed_df_partition _ _ _ _ _ Hr). cbn. unfold day_of in Hp. congruence.
Qed.

(** X8.  [main] fails, and so does not commit, when the job name is not
    among the arguments or when there is nothing under the raw path of
    the day. *)
Theorem main_fails_without_input (argv : gmap string string)
    (started current_time : Py.datetime) (now : Spark.timestamp) (s : Glue.Store) :
  1 <= Py.month started <= 12 -> 1 <= Py.day started <= 31 ->
  argv !! "JOB_NAME" = None \/ Glue.raw s !! raw_path started = None ->
  exists e, Glue.main to_timestamp argv started current_time now s = inl e.
Proof.
  intros Hm Hd H. unfold Glue.main, subscript.
  destruct (argv !! "JOB_NAME") as [job|]; [|eexists; reflexivity].
  destruct H as [H|H]; [discriminate|].
  cbn [getitem rbind ok].
  rewrite (get_date_paths_padded started Hm Hd). cbn [rbind ok Glue.DateInfo.date_path].
  change ("s3://iit-matrix-test/raw/" +:+ _ +:+ "/") with (raw_path started).
  unfold Glue.transform_data, Glue.read_json. rewrite H. eexists. reflexivity.
Qed.
End TransformerMore.

Lemma joined_row_origin_witness :
  let records := [test_record (Some "50")] in
  exists row,
    In row (Glue.transformed_df iso_timestamp records march_7 0)
    /\ exists r v r' v' key,
      In r records /\ In v (Glue.Raw.videos r)
      /\ In r' records /\ In v' (Glue.Raw.videos r')
      /\ Glue.RawChannel.channel_id (Glue.Raw.channel_info r) = Some key
      /\ Glue.RawChannel.channel_id (Glue.Raw.channel_info r') = Some key
      /\ Glue.Row.video row = snd (Glue.video_row iso_timestamp (Glue.Raw.channel_info r, v))
      /\ Glue.Row.channel row = Glue.channel_row iso_timestamp (Glue.Raw.channel_info r', v')
      /\ Glue.ChannelRow.channel_id (Glue.Row.channel row) = Some key.
Proof.
  intros records. eexists. split.
  - vm_compute. left. reflexivity.
  - apply (joined_row_origin iso_timestamp records march_7 0).
    vm_compute. left. reflexivity.
Defined.

Lemma no_channel_id_no_rows_witness :
  Glue.transformed_df iso_timestamp
    [record_of None [raw_video (Some "v1") (Some "10"); raw_video (Some "v2") (Some "20")]]
    march_7 0 = [].
Proof.
  apply (no_channel_id_no_rows iso_timestamp).
  intros r Hr. simpl in Hr. destruct Hr as [<-|[]]. reflexivity.
Defined.

Lemma same_channel_rows_squared_witness :
  let records :=
    [record_of (Some "UC1") [raw_video (Some "v1") (Some "10"); raw_video (Some "v2") (Some "20")];
     record_of (Some "UC1") [raw_video (Some "v3") (Some "30")]] in
  List.length (Glue.transformed_df iso_timestamp records march_7 0) = 9%nat.
Proof.
  intros records.
  apply (same_channel_rows_squared iso_timestamp records "UC1" march_7 0).
  intros r Hr. simpl in Hr. destruct Hr as [<-|[<-|[]]]; reflexivity.
Defined.

Lemma run_without_videos_empties_table_witness :
  partition_rows store_without_videos "out" (2025, 3, 6) = day_before_rows
  /\ day_before_rows <> []
  /\ exists s',
       Glue.transform_data iso_timestamp (date 2025 3 7) 0 "in" "out/"
         store_without_videos = inr s'
       /\ Glue.tables s' !! Glue.rstrip_slash "out/" = Some ∅
       /\ (forall p, partition_rows s' (Glue.rstrip_slash "out/") p = []).
Proof.
  split; [vm_compute; reflexivity|]. split; [vm_compute; discriminate|].
  apply (run_without_videos_empties_table iso_timestamp (date 2025 3 7) 0 "in" "out/"
           store_without_videos [record_of (Some "UC1") []]).
  - simpl; lia.
  - simpl; lia.
  - vm_compute. reflexivity.
  - intros r Hr. simpl in Hr. destruct Hr as [<-|[]]. reflexivity.
Defined.

Lemma main_reads_writes_commits_witness :
  exists s',
    Glue.main iso_timestamp {[ "JOB_NAME" := "transform" ]}
      (date 2025 3 7) (date 2025 3 8) 0 store_of_march_7 = inr s'
    /\ Glue.committed s' = true
    /\ Glue.raw s' = Glue.raw store_of_march_7
    /\ partition_rows s' transform_root (day_of (date 2025 3 8))
       = Glue.transformed_df iso_timestamp [test_record (Some "50")]
           (date_info_of (date 2025 3 8)) 0
    /\ (forall p, p <> day_of (date 2025 3 8) -> partition_rows s' transform_root p = []).
Proof.
  apply (main_reads_writes_commits iso_timestamp {[ "JOB_NAME" := "transform" ]}
           (date 2025 3 7) (date 2025 3 8) 0 store_of_march_7 "transform"
           [test_record (Some "50")]).
  - simpl; lia.
  - simpl; lia.
  - simpl; lia.
  - simpl; lia.
  - vm_compute. reflexivity.
  - vm_compute. reflexivity.
Defined.

Lemma main_fails_without_input_witness :
  exists e,
    Glue.main iso_timestamp {[ "JOB_NAME" := "transform" ]}
      (date 2025 3 8) (date 2025 3 8) 0 store_of_march_7 = inl e.
Proof.
  apply (main_fails_without_input iso_timestamp).
  - simpl; lia.
  - simpl; lia.
  - right. vm_compute. reflexivity.
Defined.

(** * Further properties of the extraction stage *)

(** ** The listing of a channel's videos *)

Lemma get_channel_info_found youtube channel channel_info s :
  Lambda.channel_info_body youtube channel = inr (Some channel_info) ->
  Lambda.get_channel_info youtube channel s = (Lambda.Ret (Some channel_info), s).
Proof. apply get_channel_info_returned. Qed.

(** X9.  [get_channel_videos] fails soft: when a page of the listing
    raises, it logs the error and returns [None], and the handler skips
    the channel without reading the clock or writing an object. *)
Theorem listing_failure_skips_channel (fuel : nat) (env : Lambda.Env)
    (youtube : Lambda.YouTube) (bucket channel : string)
    (channel_info : Lambda.Channel.t) (e : exn) (s : Lambda.State) :
  Lambda.channel_info_body youtube channel = inr (Some channel_info) ->
  Lambda.videos_loop fuel youtube (Lambda.Channel.playlist_id channel_info) 100 [] None
    = Some (inl e) ->
  Lambda.get_channel_videos fuel youtube (Lambda.Channel.playlist_id channel_info) 100 s
    = (Lambda.Ret None, logged (Lambda.ErrorChannelVideos e) s)
  /\ Lambda.process_channel fuel env youtube bucket channel s
     = (Lambda.Ret tt, logged (Lambda.ErrorChannelVideos e) s).
Proof.
  intros Hinfo Hloop.
  assert (Hv : Lambda.get_channel_videos fuel youtube
                 (Lambda.Channel.playlist_id channel_info) 100 s
               = (Lambda.Ret None, logged (Lambda.ErrorChannelVideos e) s)).
  { unfold Lambda.get_channel_videos. rewrite Hloop. reflexivity. }
  split; [exact Hv|].
  unfold Lambda.process_channel, Lambda.bind at 1.
  rewrite (get_channel_info_found _ _ _ _ Hinfo).
  unfold Lambda.bind. rewrite Hv. reflexivity.
Qed.

(** X10.  A channel whose listing is empty is skipped: nothing is
    logged, the clock is not read and no object is written. *)
Theorem empty_listing_skips_channel (fuel : nat) (env : Lambda.Env)
    (youtube : Lambda.YouTube) (bucket channel : string)
    (channel_info : Lambda.Channel.t) (s : Lambda.State) :
  Lambda.channel_info_body youtube channel = inr (Some channel_info) ->
  Lambda.videos_loop fuel youtube (Lambda.Channel.playlist_id channel_info) 100 [] None
    = Some (inr []) ->
  Lambda.process_channel fuel env youtube bucket channel s = (Lambda.Ret tt, s).
Proof.
  intros Hinfo Hloop.
  unfold Lambda.process_channel, Lambda.bind at 1.
  rewrite (get_channel_info_found _ _ _ _ Hinfo).
  unfold Lambda.bind, Lambda.get_channel_videos. rewrite Hloop. reflexivity.
Qed.


Lemma mapM_inr {A B} (f : A -> Res B) (l : list A) (ys : list B) :
  mapM f l = inr ys -> Forall2 (fun a y => f a = inr y) l ys.
Proof.
  revert ys. induction l as [|a l IH]; intros ys H; cbn [mapM] in H.
  - injection H as <-. constructor.
  - destruct (f a) as [e|y] eqn:Ha; [discriminate|]. cbn [rbind] in H.
    destruct (mapM f l) as [e|ys'] eqn:Hl; [discriminate|]. cbn [rbind ok] in H.
    injection H as <-. constructor; [exact Ha|now apply IH].
Qed.

(** What one turn of the loop does, read off a turn that returned. *)
Lemma videos_page_inv youtube playlist_id max_results videos token videos' token' :
  Lambda.videos_page youtube playlist_id max_results videos token = inr (videos', token') ->
  exists response pitems ids video_response vitems new,
    Lambda.playlistItems_list youtube playlist_id
      (Z.min 50 (max_results - Lambda.len videos)) token = inr response
    /\ Lambda.items response = Some pitems
    /\ Lambda.nextPageToken response = token'
    /\ Lambda.video_ids pitems = inr ids
    /\ Lambda.videos_list youtube (Py.join "," ids) = inr video_response
    /\ Lambda.items video_response = Some vitems
    /\ mapM Lambda.video_of (zip pitems vitems) = inr new
    /\ videos' = (videos ++ new)%list.
Proof.
  unfold Lambda.videos_page. intros H.
  destruct (Lambda.playlistItems_list _ _ _ _) as [e|response] eqn:H1; [discriminate|].
  cbn [rbind] in H.
  destruct (Lambda.items response) as [pitems|] eqn:H2; [|discriminate].
  cbn [getitem rbind ok] in H.
  destruct (Lambda.video_ids pitems) as [e|ids] eqn:H3; [discriminate|].
  cbn [rbind] in H.
  destruct (Lambda.videos_list youtube (Py.join "," ids)) as [e|video_response] eqn:H4;
    [discriminate|].
  cbn [rbind] in H.
  destruct (Lambda.items video_response) as [vitems|] eqn:H5; [|discriminate].
  cbn [getitem rbind ok] in H.
  destruct (mapM Lambda.video_of (zip pitems vitems)) as [e|new] eqn:H6; [discriminate|].
  cbn [rbind ok] in H. injection H as <- <-.
  exists response, pitems, ids, video_response, vitems, new. auto 10.
Qed.


(** X13.  When the upstream never returns more items than were asked
    for, the listing holds at most [max_results] videos. *)
Theorem listing_respects_max_results (youtube : Lambda.YouTube) (playlist_id : string)
    (max_results : Z) :
  (forall n token response pitems,
     0 <= n ->
     Lambda.playlistItems_list youtube playlist_id n token = inr response ->
     Lambda.items response = Some pitems -> Lambda.len pitems <= n) ->
  forall fuel videos token result,
    Lambda.len videos <= max_results ->
    Lambda.videos_loop fuel youtube playlist_id max_results videos token = Some (inr result) ->
    Lambda.len result <= max_results.
Proof.
  intros Hhonest fuel.
  induction fuel as [|fuel IH]; intros videos token result Hle H; [discriminate|].
  cbn [Lambda.videos_loop] in H.
  destruct (Lambda.videos_page youtube playlist_id max_results videos token)
    as [e|[videos' token']] eqn:Hpage; [discriminate|].
  assert (Hle' : Lambda.len videos' <= max_results).
  { destruct (videos_page_inv _ _ _ _ _ _ _ Hpage)
      as (response & pitems & ids & video_response & vitems & new
          & H1 & H2 & _ & _ & _ & _ & H6 & ->).
    assert (Hn : Lambda.len pitems <= Z.min 50 (max_results - Lambda.len videos))
      by (refine (Hhonest _ _ _ _ _ H1 H2); lia).
    apply mapM_inr, Forall2_length in H6. rewrite length_zip in H6.
    unfold Lambda.len in *. rewrite length_app. lia. }
  destruct (negb (Lambda.truthy token') || (max_results <=? Lambda.len videos')).
  - injection H as <-. exact Hle'.
  - apply (IH _ _ _ Hle' H).
Qed.

Lemma listing_failure_skips_channel_witness :
  let youtube := one_channel_youtube full_statistics (inl (HttpError "quotaExceeded")) [] in
  let e := HttpError "quotaExceeded" in
  Lambda.get_channel_videos 5 youtube (Lambda.Channel.playlist_id listed_channel) 100 initial
    = (Lambda.Ret None, logged (Lambda.ErrorChannelVideos e) initial)
  /\ Lambda.process_channel 5 (test_env youtube) youtube "bucket" "@zaobaodotsg" initial
     = (Lambda.Ret tt, logged (Lambda.ErrorChannelVideos e) initial).
Proof.
  intros youtube e.
  apply (listing_failure_skips_channel 5 (test_env youtube) youtube "bucket"
           "@zaobaodotsg" listed_channel e initial).
  - vm_compute. reflexivity.
  - vm_compute. reflexivity.
Defined.

Lemma empty_listing_skips_channel_witness :
  let youtube := one_channel_youtube full_statistics (inr []) [] in
  Lambda.process_channel 5 (test_env youtube) youtube "bucket" "@zaobaodotsg" initial
  = (Lambda.Ret tt, initial).
Proof.
  intros youtube.
  apply (empty_listing_skips_channel 5 (test_env youtube) youtube "bucket"
           "@zaobaodotsg" listed_channel initial).
  - vm_compute. reflexivity.
  - vm_compute. reflexivity.
Defined.



Lemma listing_respects_max_results_witness :
  let youtube :=
    honest_youtube [a_playlist_item "v1" "2025-01-01T00:00:00Z";
                    a_playlist_item "v2" "2025-02-01T00:00:00Z"]
      [a_video_resource "7"; a_video_resource "9"] in
  exists result,
    Lambda.videos_loop 5 youtube "UU0001" 1 [] None = Some (inr result)
    /\ Lambda.len result <= 1.
Proof.
  intros youtube. eexists. split.
  - vm_compute. reflexivity.
  - apply (listing_respects_max_results youtube "UU0001" 1) with (fuel := 5%nat)
      (videos := []) (token := None).
    + intros n token response pitems Hn H1 H2.
      cbn in H1. injection H1 as <-. cbn in H2. injection H2 as <-.
      unfold Lambda.len. rewrite length_take. lia.
    + vm_compute. discriminate.
    + vm_compute. reflexivity.
Defined.

(** ** One channel: analysis and upload *)

(** A channel that was found and has videos reaches the upload, after
    two readings of the clock. *)
Lemma process_channel_reaches_upload fuel env youtube bucket channel
    channel_info videos analysis s :
  Lambda.channel_info_body youtube channel = inr (Some channel_info) ->
  Lambda.videos_loop fuel youtube (Lambda.Channel.playlist_id channel_info) 100 [] None
    = Some (inr videos) ->
  videos <> [] ->
  Lambda.analyze_channel_data (Lambda.utc_clock env (Lambda.ticks s)) channel_info videos
    = inr analysis ->
  Lambda.process_channel fuel env youtube bucket channel s
  = Lambda.bind
      (Lambda.upload_to_s3 env
         {| Lambda.Assembled.channel_info := channel_info;
            Lambda.Assembled.videos := videos;
            Lambda.Assembled.analysis := analysis |}
         bucket
         (object_key (Lambda.Channel.title channel_info)
            (Lambda.utc_clock env (S (Lambda.ticks s)))))
      (fun _ => Lambda.ret tt) (ticked 2 s).
Proof.
  intros Hinfo Hloop Hne Ha.
  unfold Lambda.process_channel, Lambda.bind at 1.
  rewrite (get_channel_info_found _ _ _ _ Hinfo).
  unfold Lambda.bind at 1, Lambda.get_channel_videos. rewrite Hloop.
  destruct videos as [|v videos]; [contradiction|].
  unfold Lambda.bind at 1, Lambda.utcnow at 1.
  unfold Lambda.bind at 1, Lambda.lift at 1. cbn [Lambda.ticks]. rewrite Ha.
  unfold Lambda.bind at 1, Lambda.utcnow at 1. reflexivity.
Qed.

(** X14.  A channel that is found, has videos and whose data parses is
    stored once: the object holds the channel, its videos and the
    analysis made at the first reading of the clock, under a key built
    from the title and the second reading; no other object changes and
    one line is logged. *)
Theorem channel_is_stored (fuel : nat) (env : Lambda.Env) (youtube : Lambda.YouTube)
    (bucket channel : string) (channel_info : Lambda.Channel.t)
    (videos : list Lambda.Video.t) (analysis : Lambda.Analysis.t) (s : Lambda.State) :
  let key := object_key (Lambda.Channel.title channel_info)
               (Lambda.utc_clock env (S (Lambda.ticks s))) in
  Lambda.channel_info_body youtube channel = inr (Some channel_info) ->
  Lambda.videos_loop fuel youtube (Lambda.Channel.playlist_id channel_info) 100 [] None
    = Some (inr videos) ->
  videos <> [] ->
  Lambda.analyze_channel_data (Lambda.utc_clock env (Lambda.ticks s)) channel_info videos
    = inr analysis ->
  Lambda.put_object env bucket key = None ->
  exists s',
    Lambda.process_channel fuel env youtube bucket channel s = (Lambda.Ret tt, s')
    /\ Lambda.objects s' !! (bucket, key)
       = Some {| Lambda.Assembled.channel_info := channel_info;
                 Lambda.Assembled.videos := videos;
                 Lambda.Assembled.analysis := analysis |}
    /\ (forall k, k <> (bucket, key) -> Lambda.objects s' !! k = Lambda.objects s !! k)
    /\ Lambda.log s' = (Lambda.log s ++ [Lambda.InfoUploaded bucket key])%list
    /\ Lambda.ticks s' = (2 + Lambda.ticks s)%nat.
Proof.
  intros key Hinfo Hloop Hne Ha Hput.
  rewrite (process_channel_reaches_upload _ _ _ _ _ _ _ _ _ Hinfo Hloop Hne Ha).
  fold key. unfold Lambda.bind, Lambda.upload_to_s3. rewrite Hput.
  eexists. split; [reflexivity|]. cbn [Lambda.objects Lambda.log Lambda.ticks ticked].
  split; [apply lookup_insert_eq|]. split; [|split; reflexivity].
  intros k Hk. now rewrite lookup_insert_ne.
Qed.

(** X15.  When the upload fails with a [ClientError], the error is
    logged, nothing is stored and the loop goes on with the next
    channel; when it fails with any other error, the error leaves the
    loop and the channels that remain are not processed. *)
Theorem upload_failure_policy (fuel : nat) (env : Lambda.Env) (youtube : Lambda.YouTube)
    (bucket channel : string) (rest : list string) (channel_info : Lambda.Channel.t)
    (videos : list Lambda.Video.t) (analysis : Lambda.Analysis.t) (e : exn)
    (s : Lambda.State) :
  Lambda.channel_info_body youtube channel = inr (Some channel_info) ->
  Lambda.videos_loop fuel youtube (Lambda.Channel.playlist_id channel_info) 100 [] None
    = Some (inr videos) ->
  videos <> [] ->
  Lambda.analyze_channel_data (Lambda.utc_clock env (Lambda.ticks s)) channel_info videos
    = inr analysis ->
  Lambda.put_object env bucket
    (object_key (Lambda.Channel.title channel_info)
       (Lambda.utc_clock env (S (Lambda.ticks s)))) = Some e ->
  if Lambda.is_ClientError e then
    Lambda.for_channels fuel env youtube bucket (channel :: rest) s
    = Lambda.for_channels fuel env youtube bucket rest
        (logged (Lambda.ErrorS3Upload e) (ticked 2 s))
  else
    Lambda.for_channels fuel env youtube bucket (channel :: rest) s
    = (Lambda.Raise e, ticked 2 s).
Proof.
  intros Hinfo Hloop Hne Ha Hput.
  destruct (Lambda.is_ClientError e) eqn:Hclient;
    cbn [Lambda.for_channels]; unfold Lambda.bind at 1;
    rewrite (process_channel_reaches_upload _ _ _ _ _ _ _ _ _ Hinfo Hloop Hne Ha);
    unfold Lambda.bind at 1, Lambda.upload_to_s3; rewrite Hput, Hclient; reflexivity.
Qed.

(** X16.  An error in the data of a channel is not caught in the loop:
    when the analysis of a channel raises, so does the processing of the
    channel, after one reading of the clock and before any upload. *)
Theorem analysis_error_leaves_channel (fuel : nat) (env : Lambda.Env)
    (youtube : Lambda.YouTube) (bucket channel : string)
    (channel_info : Lambda.Channel.t) (videos : list Lambda.Video.t) (e : exn)
    (s : Lambda.State) :
  Lambda.channel_info_body youtube channel = inr (Some channel_info) ->
  Lambda.videos_loop fuel youtube (Lambda.Channel.playlist_id channel_info) 100 [] None
    = Some (inr videos) ->
  videos <> [] ->
  Lambda.analyze_channel_data (Lambda.utc_clock env (Lambda.ticks s)) channel_info videos
    = inl e ->
  Lambda.process_channel fuel env youtube bucket channel s = (Lambda.Raise e, ticked 1 s).
Proof.
  intros Hinfo Hloop Hne Ha.
  unfold Lambda.process_channel, Lambda.bind at 1.
  rewrite (get_channel_info_found _ _ _ _ Hinfo).
  unfold Lambda.bind at 1, Lambda.get_channel_videos. rewrite Hloop.
  destruct videos as [|v videos]; [contradiction|].
  unfold Lambda.bind at 1, Lambda.utcnow at 1.
  unfold Lambda.bind at 1, Lambda.lift at 1. cbn [Lambda.ticks]. rewrite Ha.
  reflexivity.
Qed.

Lemma for_channels_app fuel env youtube bucket pre post s :
  Lambda.for_channels fuel env youtube bucket (pre ++ post) s
  = Lambda.bind (Lambda.for_channels fuel env youtube bucket pre)
      (fun _ => Lambda.for_channels fuel env youtube bucket post) s.
Proof.
  revert s. induction pre as [|c pre IH]; intros s; [reflexivity|].
  cbn [app Lambda.for_channels]. unfold Lambda.bind.
  destruct (Lambda.process_channel fuel env youtube bucket c s) as [[[]|e|] s1];
    [|reflexivity|reflexivity].
  rewrite IH. unfold Lambda.bind. reflexivity.
Qed.

(** X17.  An exception in any channel ends the batch: when the channels
    before it were processed and the processing of a channel raises, the
    handler logs the error and answers 500, in the state the exception
    left; the channels after it are not processed. *)
Theorem channel_exception_aborts_batch (fuel : nat) (env : Lambda.Env)
    (key bucket : string) (youtube : Lambda.YouTube)
    (before after : list string) (channel : string) (e : exn)
    (s s1 s2 : Lambda.State) :
  Lambda.environ env !! "YOUTUBE_API_KEY" = Some key ->
  Lambda.environ env !! "S3_BUCKET_NAME" = Some bucket ->
  Lambda.build env key = inr youtube ->
  Lambda.channels = (before ++ channel :: after)%list ->
  Lambda.for_channels fuel env youtube bucket before s = (Lambda.Ret tt, s1) ->
  Lambda.process_channel fuel env youtube bucket channel s1 = (Lambda.Raise e, s2) ->
  Lambda.lambda_handler fuel env s
  = (Lambda.Ret {| Lambda.statusCode := 500; Lambda.body_ := Lambda.Error e |},
     logged (Lambda.ErrorLambda e) s2).
Proof.
  intros Hkey Hbucket Hbuild Hsplit Hbefore Hraise.
  assert (Hbody : Lambda.handler_body fuel env s = (Lambda.Raise e, s2)).
  { unfold Lambda.handler_body, Lambda.bind at 1, Lambda.lift at 1, subscript.
    rewrite Hkey. cbn [getitem ok].
    unfold Lambda.bind at 1, Lambda.lift at 1. rewrite Hbucket. cbn [getitem ok].
    unfold Lambda.bind at 1, Lambda.lift at 1. rewrite Hbuild.
    rewrite Hsplit, for_channels_app. unfold Lambda.bind at 1. rewrite Hbefore.
    cbn [Lambda.for_channels]. unfold Lambda.bind at 1. rewrite Hraise. reflexivity. }
  unfold Lambda.lambda_handler, Lambda.try_except, Lambda.bind at 1.
  rewrite Hbody. reflexivity.
Qed.

Lemma channel_is_stored_witness :
  let youtube := one_video_youtube "2025-01-01T00:00:00Z" in
  let videos := [a_video "v1" "7" "2025-01-01T00:00:00Z"] in
  exists analysis,
    Lambda.analyze_channel_data (date 2025 3 7) listed_channel videos = inr analysis
    /\ exists s',
      Lambda.process_channel 5 (test_env youtube) youtube "bucket" "@zaobaodotsg" initial
      = (Lambda.Ret tt, s')
      /\ Lambda.objects s' !! ("bucket", "raw/Test_Channel_20250307_000000.json")
         = Some {| Lambda.Assembled.channel_info := listed_channel;
                   Lambda.Assembled.videos := videos;
                   Lambda.Assembled.analysis := analysis |}
      /\ (forall k, k <> ("bucket", "raw/Test_Channel_20250307_000000.json") ->
                    Lambda.objects s' !! k = Lambda.objects initial !! k)
      /\ Lambda.log s'
         = [Lambda.InfoUploaded "bucket" "raw/Test_Channel_20250307_000000.json"]
      /\ Lambda.ticks s' = 2%nat.
Proof.
  intros youtube videos. eexists. split; [vm_compute; reflexivity|].
  refine (channel_is_stored 5 (test_env youtube) youtube "bucket" "@zaobaodotsg"
            listed_channel videos _ initial _ _ _ _ _).
  - vm_compute. reflexivity.
  - vm_compute. reflexivity.
  - discriminate.
  - vm_compute. reflexivity.
  - reflexivity.
Defined.

Lemma upload_failure_policy_witness :
  let youtube := one_video_youtube "2025-01-01T00:00:00Z" in
  let e := ClientError "AccessDenied" in
  Lambda.for_channels 5 (faulty_env youtube e) youtube "bucket"
    ["@zaobaodotsg"; "@BeritaHarianSG1957"] initial
  = Lambda.for_channels 5 (faulty_env youtube e) youtube "bucket"
      ["@BeritaHarianSG1957"] (logged (Lambda.ErrorS3Upload e) (ticked 2 initial)).
Proof.
  intros youtube e.
  assert (Ha : exists analysis,
             Lambda.analyze_channel_data (date 2025 3 7) listed_channel
               [a_video "v1" "7" "2025-01-01T00:00:00Z"] = inr analysis)
    by (eexists; vm_compute; reflexivity).
  destruct Ha as [analysis Ha].
  refine (upload_failure_policy 5 (faulty_env youtube e) youtube "bucket" "@zaobaodotsg"
            ["@BeritaHarianSG1957"] listed_channel
            [a_video "v1" "7" "2025-01-01T00:00:00Z"] analysis e initial _ _ _ Ha _).
  - vm_compute. reflexivity.
  - vm_compute. reflexivity.
  - discriminate.
  - reflexivity.
Defined.

Lemma analysis_error_leaves_channel_witness :
  let youtube := one_video_youtube "yesterday" in
  Lambda.process_channel 5 (test_env youtube) youtube "bucket" "@zaobaodotsg" initial
  = (Lambda.Raise (Py.bad_time "yesterday"), ticked 1 initial).
Proof.
  intros youtube.
  apply (analysis_error_leaves_channel 5 (test_env youtube) youtube "bucket"
           "@zaobaodotsg" listed_channel [a_video "v1" "7" "yesterday"]).
  - vm_compute. reflexivity.
  - vm_compute. reflexivity.
  - discriminate.
  - vm_compute. reflexivity.
Defined.

Lemma channel_exception_aborts_batch_witness :
  let youtube := one_video_youtube "yesterday" in
  let e := Py.bad_time "yesterday" in
  Lambda.lambda_handler 5 (test_env youtube) initial
  = (Lambda.Ret {| Lambda.statusCode := 500; Lambda.body_ := Lambda.Error e |},
     logged (Lambda.ErrorLambda e) (ticked 1 initial)).
Proof.
  intros youtube e.
  apply (channel_exception_aborts_batch 5 (test_env youtube) "key" "bucket" youtube
           [] ["@TheBusinessTimes"; "@Tamil_Murasu"; "@zaobaodotsg"; "@BeritaHarianSG1957"]
           "@straitstimesonline" e initial initial (ticked 1 initial)).
  - vm_compute. reflexivity.
  - vm_compute. reflexivity.
  - reflexivity.
  - reflexivity.
  - reflexivity.
  - vm_compute. reflexivity.
Defined.

(** ** What the handler keeps *)

Lemma grows_refl s : grows s s.
Proof. unfold grows. split; [reflexivity|]. split; [reflexivity|lia]. Qed.

Lemma grows_trans s1 s2 s3 : grows s1 s2 -> grows s2 s3 -> grows s1 s3.
Proof.
  unfold grows. intros (L1 & O1 & T1) (L2 & O2 & T2).
  split; [now transitivity (Lambda.log s2)|].
  split; [now transitivity (dom (Lambda.objects s2))|lia].
Qed.

Lemma grows_logged entry s : grows s (logged entry s).
Proof.
  unfold grows, logged. cbn. split; [now apply prefix_app_r|].
  split; [reflexivity|lia].
Qed.

Lemma keeps_ret {A} (a : A) : keeps (Lambda.ret a).
Proof. intros s. apply grows_refl. Qed.

Lemma keeps_lift {A} (r : Res A) : keeps (Lambda.lift r).
Proof. intros s. unfold Lambda.lift. destruct r; apply grows_refl. Qed.

Lemma keeps_bind {A B} (m : Lambda.M A) (k : A -> Lambda.M B) :
  keeps m -> (forall a, keeps (k a)) -> keeps (Lambda.bind m k).
Proof.
  intros Hm Hk s. unfold Lambda.bind. specialize (Hm s).
  destruct (m s) as [[a|e|] s1]; cbn [snd] in *; [|exact Hm|exact Hm].
  eapply grows_trans; [exact Hm|apply Hk].
Qed.

Lemma keeps_try {A} (m : Lambda.M A) (h : exn -> Lambda.M A) :
  keeps m -> (forall e, keeps (h e)) -> keeps (Lambda.try_except m h).
Proof.
  intros Hm Hh s. unfold Lambda.try_except. specialize (Hm s).
  destruct (m s) as [[a|e|] s1]; cbn [snd] in *; [exact Hm| |exact Hm].
  eapply grows_trans; [exact Hm|apply Hh].
Qed.

Lemma keeps_logger entry : keeps (Lambda.logger entry).
Proof. intros s. apply (grows_logged entry s). Qed.

Lemma keeps_utcnow env : keeps (Lambda.utcnow env).
Proof.
  intros s. unfold grows, Lambda.utcnow. cbn.
  split; [reflexivity|]. split; [reflexivity|lia].
Qed.

Lemma keeps_upload env data bucket key : keeps (Lambda.upload_to_s3 env data bucket key).
Proof.
  intros s. unfold Lambda.upload_to_s3.
  destruct (Lambda.put_object env bucket key) as [e|].
  - destruct (Lambda.is_ClientError e); [|apply grows_refl].
    apply (keeps_bind _ _ (keeps_logger _) (fun _ => keeps_ret _)).
  - unfold grows. cbn. split; [now apply prefix_app_r|].
    split; [apply dom_insert_subseteq|lia].
Qed.

Lemma keeps_get_channel_info youtube channel :
  keeps (Lambda.get_channel_info youtube channel).
Proof.
  apply keeps_try; [apply keeps_lift|].
  intros e. apply keeps_bind; [apply keeps_logger|intros; apply keeps_ret].
Qed.

Lemma keeps_get_channel_videos fuel youtube playlist_id max_results :
  keeps (Lambda.get_channel_videos fuel youtube playlist_id max_results).
Proof.
  intros s. unfold Lambda.get_channel_videos.
  destruct (Lambda.videos_loop _ _ _ _ _ _) as [[e|videos]|]; try apply grows_refl.
  apply (keeps_bind _ _ (keeps_logger _) (fun _ => keeps_ret _)).
Qed.

Lemma keeps_process_channel fuel env youtube bucket channel :
  keeps (Lambda.process_channel fuel env youtube bucket channel).
Proof.
  unfold Lambda.process_channel.
  apply keeps_bind; [apply keeps_get_channel_info|].
  intros [channel_info|]; [|apply keeps_ret].
  apply keeps_bind; [apply keeps_get_channel_videos|].
  intros [[|v videos]|]; try apply keeps_ret.
  apply keeps_bind; [apply keeps_utcnow|]. intros current_time.
  apply keeps_bind; [apply keeps_lift|]. intros analysis.
  apply keeps_bind; [apply keeps_utcnow|]. intros stamp.
  apply keeps_bind; [apply keeps_upload|]. intros _. apply keeps_ret.
Qed.

Lemma keeps_for_channels fuel env youtube bucket cs :
  keeps (Lambda.for_channels fuel env youtube bucket cs).
Proof.
  induction cs as [|c cs IH]; [apply keeps_ret|].
  cbn [Lambda.for_channels].
  apply keeps_bind; [apply keeps_process_channel|intros _; exact IH].
Qed.

(** X18.  Whatever the upstream, the clock and the store do, and whether
    the handler answers 200 or 500, it only adds: every line that was in
    the log is still there, in place; every object that was in the
    bucket is still in the bucket; the clock was not turned back. *)
Theorem handler_only_adds (fuel : nat) (env : Lambda.Env) (s : Lambda.State) :
  grows s (snd (Lambda.lambda_handler fuel env s)).
Proof.
  revert s. change (keeps (Lambda.lambda_handler fuel env)).
  unfold Lambda.lambda_handler. apply keeps_try.
  - apply keeps_bind; [|intros; apply keeps_ret].
    unfold Lambda.handler_body.
    apply keeps_bind; [apply keeps_lift|]. intros API_KEY.
    apply keeps_bind; [apply keeps_lift|]. intros S3_BUCKET.
    apply keeps_bind; [apply keeps_lift|]. intros extractor.
    apply keeps_for_channels.
  - intros e. apply keeps_bind; [apply keeps_logger|intros; apply keeps_ret].
Qed.

(** ** The analyzer *)

Lemma analyze_inv current_time channel_data videos_data a :
  Lambda.analyze_channel_data current_time channel_data videos_data = inr a ->
  exists t12 sorted trends,
    Py.minus_days current_time 365 = inr t12
    /\ Py.sorted_reverse (fun x => Py.int (Lambda.Video.view_count x)) videos_data
       = inr sorted
    /\ Lambda.count_trends t12 videos_data ∅ = inr trends
    /\ Lambda.Analysis.video_trends a = trends
    /\ Lambda.Analysis.top_videos a = Lambda.top_video <$> take 10 sorted.
Proof.
  unfold Lambda.analyze_channel_data. intros H.
  destruct (Py.minus_days current_time 365) as [e|t12] eqn:H1; [discriminate|].
  cbn [rbind] in H.
  destruct (Py.sorted_reverse _ videos_data) as [e|sorted] eqn:H2; [discriminate|].
  cbn [rbind] in H.
  destruct (Lambda.count_trends t12 videos_data ∅) as [e|trends] eqn:H3; [discriminate|].
  cbn [rbind ok] in H. injection H as <-. exists t12, sorted, trends.
  repeat split; assumption.
Qed.

Lemma mapM_returns_all {A B} (f : A -> Res B) (l : list A) (ys : list B) :
  mapM f l = inr ys -> Forall (fun a => returns (f a)) l /\ List.length ys = List.length l.
Proof.
  intros H. apply mapM_inr in H. split.
  - induction H as [|a y l ys Ha _ IH]; constructor; [now exists y|exact IH].
  - symmetry. eapply Forall2_length, H.
Qed.

Lemma count_trends_inr t12 videos m m' :
  Lambda.count_trends t12 videos m = inr m' ->
  Forall (fun v => returns (Py.strptime (Lambda.Video.published_at v))) videos.
Proof.
  revert m. induction videos as [|v l IH]; intros m H; [constructor|].
  cbn [Lambda.count_trends] in H.
  destruct (Py.strptime (Lambda.Video.published_at v)) as [e|d] eqn:Hd; [discriminate|].
  cbn [rbind] in H. constructor; [now exists d|]. eapply IH, H.
Qed.

(** X19.  [analyze_channel_data] returns a summary exactly when the
    time twelve months before the current time is in range, every view
    count reads as an integer and every creation timestamp parses; in
    every other case it raises. *)
Theorem analyze_returns_iff (current_time : Py.datetime)
    (channel_data : Lambda.Channel.t) (videos_data : list Lambda.Video.t) :
  returns (Lambda.analyze_channel_data current_time channel_data videos_data)
  <-> returns (Py.minus_days current_time 365)
      /\ Forall (fun v => returns (Py.int (Lambda.Video.view_count v))) videos_data
      /\ Forall (fun v => returns (Py.strptime (Lambda.Video.published_at v))) videos_data.
Proof.
  split.
  - intros [a Ha].
    destruct (analyze_inv _ _ _ _ Ha) as (t12 & sorted & trends & H1 & H2 & H3 & _).
    split; [now exists t12|]. split; [|eapply count_trends_inr, H3].
    unfold Py.sorted_reverse in H2.
    destruct (mapM _ videos_data) as [e|ks] eqn:Hk; [discriminate|].
    apply (mapM_returns_all _ _ _ Hk).
  - intros ([t12 H12] & Hint & Htime). unfold Lambda.analyze_channel_data.
    rewrite H12, (sorted_reverse_views _ Hint). cbn [rbind].
    destruct (count_trends_returns t12 videos_data Htime ∅) as [trends ->].
    cbn [rbind]. eexists. reflexivity.
Qed.

Lemma month_count_cons t12 v videos k :
  month_count t12 (v :: videos) k
  = (if in_month t12 k v then 1 else 0) + month_count t12 videos k.
Proof.
  unfold month_count. cbn [List.filter].
  destruct (in_month t12 k v); cbn [List.length]; lia.
Qed.

Lemma month_count_nonneg t12 videos k : 0 <= month_count t12 videos k.
Proof. unfold month_count. lia. Qed.

Lemma count_trends_counts t12 videos :
  forall m m', Lambda.count_trends t12 videos m = inr m' ->
  forall k,
    default 0 (m' !! k) = default 0 (m !! k) + month_count t12 videos k
    /\ (m' !! k = None <-> m !! k = None /\ month_count t12 videos k = 0).
Proof.
  induction videos as [|v l IH]; intros m m' H k.
  - cbn in H. injection H as <-. unfold month_count. cbn. split; [lia|tauto].
  - cbn [Lambda.count_trends] in H. rewrite month_count_cons.
    pose proof (month_count_nonneg t12 l k) as Hpos.
    unfold in_month.
    destruct (Py.strptime (Lambda.Video.published_at v)) as [e|d]; [discriminate|].
    cbn [rbind] in H.
    destruct (IH _ _ H k) as [Hsum Hnone]. clear IH H.
    destruct (t12 <=? Py.micros d); cbn [andb].
    + cbv zeta in Hsum, Hnone.
      destruct (String.eqb_spec (Py.strftime_Y_m d) k) as [E|Hne].
      * rewrite E in Hsum, Hnone.
        rewrite lookup_insert_eq in Hsum, Hnone. cbn [default] in Hsum.
        change (id (default 0 (m !! k) + 1)) with (default 0 (m !! k) + 1) in Hsum.
        split; [lia|]. rewrite Hnone. split; [intros [? _]; discriminate|lia].
      * rewrite lookup_insert_ne in Hsum, Hnone by exact Hne.
        split; [lia|]. rewrite Hnone. split; intros [? ?]; split; auto; lia.
    + split; [lia|]. rewrite Hnone. split; intros [? ?]; split; auto; lia.
Qed.

(** X20.  In a summary, the trend of a month is the number of videos
    whose creation time is not more than 365 days before the current
    time and falls in that month; a month without such a video has no
    entry. *)
Theorem video_trends_counts (current_time : Py.datetime)
    (channel_data : Lambda.Channel.t) (videos_data : list Lambda.Video.t)
    (a : Lambda.Analysis.t) :
  Lambda.analyze_channel_data current_time channel_data videos_data = inr a ->
  exists twelve_months_ago,
    Py.minus_days current_time 365 = inr twelve_months_ago
    /\ twelve_months_ago = Py.micros current_time - 365 * Py.day_micros
    /\ forall k,
         default 0 (Lambda.Analysis.video_trends a !! k)
         = month_count twelve_months_ago videos_data k
         /\ (Lambda.Analysis.video_trends a !! k = None
             <-> month_count twelve_months_ago videos_data k = 0).
Proof.
  intros Ha.
  destruct (analyze_inv _ _ _ _ Ha) as (t12 & sorted & trends & H1 & _ & H3 & -> & _).
  exists t12. split; [exact H1|]. split.
  - unfold Py.minus_days in H1. destruct (_ <? 1); [discriminate|]. now injection H1.
  - intros k. destruct (count_trends_counts _ _ _ _ H3 k) as [Hsum Hnone].
    rewrite lookup_empty in Hsum, Hnone. cbn [default] in Hsum.
    split; [lia|]. rewrite Hnone. tauto.
Qed.

Lemma sorted_reverse_perm {A} (key : A -> Res Z) (l sorted : list A) :
  Py.sorted_reverse key l = inr sorted -> Permutation sorted l.
Proof.
  unfold Py.sorted_reverse. intros H.
  destruct (mapM key l) as [e|ks] eqn:Hk; [discriminate|].
  cbn [rbind ok] in H. injection H as <-.
  apply mapM_returns_all in Hk as [_ Hlen].
  rewrite <- (snd_zip ks l) at 2 by lia.
  apply fmap_Permutation, sort_desc_perm.
Qed.

(** X21.  The top list has ten entries when there are ten videos or
    more, and otherwise one entry for every video: with at most ten
    videos it is the whole input, reordered. *)
Theorem top_videos_length (current_time : Py.datetime)
    (channel_data : Lambda.Channel.t) (videos_data : list Lambda.Video.t)
    (a : Lambda.Analysis.t) :
  Lambda.analyze_channel_data current_time channel_data videos_data = inr a ->
  List.length (Lambda.Analysis.top_videos a) = Nat.min 10 (List.length videos_data)
  /\ ((List.length videos_data <= 10)%nat ->
      Permutation (Lambda.Analysis.top_videos a) (Lambda.top_video <$> videos_data)).
Proof.
  intros Ha.
  destruct (analyze_inv _ _ _ _ Ha) as (t12 & sorted & trends & _ & H2 & _ & _ & ->).
  pose proof (sorted_reverse_perm _ _ _ H2) as Hperm.
  split.
  - rewrite length_fmap, length_take. now rewrite (Permutation_length Hperm).
  - intros Hle. rewrite take_ge by (rewrite (Permutation_length Hperm); lia).
    now apply fmap_Permutation.
Qed.

(** ** The lookup of a channel *)

(** X22.  A channel that the upstream does not know is not an error:
    when the search for a handle, or the lookup of an identifier that
    starts with [UC], answers with no items, [get_channel_info] returns
    [None] and logs nothing.  For an identifier that starts with [UC]
    the search is not consulted at all. *)
Theorem unknown_channel_is_silent (youtube : Lambda.YouTube)
    (channel_identifier : string) (s : Lambda.State) :
  (Lambda.startswith channel_identifier "UC" = false
   /\ exists response, Lambda.search_list youtube channel_identifier = inr response
                       /\ Lambda.items response = Some [])
  \/ (Lambda.startswith channel_identifier "UC" = true
      /\ exists response, Lambda.channels_list youtube channel_identifier = inr response
                          /\ Lambda.items response = Some []) ->
  Lambda.get_channel_info youtube channel_identifier s = (Lambda.Ret None, s).
Proof.
  intros H. apply get_channel_info_returned. unfold Lambda.channel_info_body.
  destruct H as [(Hs & r & Hr & Hi)|(Hs & r & Hr & Hi)]; rewrite Hs; cbn [negb].
  - rewrite Hr. cbn [rbind]. rewrite Hi. reflexivity.
  - cbn [rbind ok]. rewrite Hr. cbn [rbind]. rewrite Hi. reflexivity.
Qed.


Lemma video_trends_counts_witness :
  exists a,
    Lambda.analyze_channel_data (date 2025 3 7) test_channel three_videos = inr a
    /\ exists twelve_months_ago,
      Py.minus_days (date 2025 3 7) 365 = inr twelve_months_ago
      /\ twelve_months_ago = Py.micros (date 2025 3 7) - 365 * Py.day_micros
      /\ forall k,
           default 0 (Lambda.Analysis.video_trends a !! k)
           = month_count twelve_months_ago three_videos k
           /\ (Lambda.Analysis.video_trends a !! k = None
               <-> month_count twelve_months_ago three_videos k = 0).
Proof.
  eexists. split; [vm_compute; reflexivity|].
  apply (video_trends_counts (date 2025 3 7) test_channel three_videos).
  vm_compute. reflexivity.
Defined.

Lemma top_videos_length_witness :
  exists a,
    Lambda.analyze_channel_data (date 2025 3 7) test_channel three_videos = inr a
    /\ List.length (Lambda.Analysis.top_videos a) = Nat.min 10 (List.length three_videos)
    /\ ((List.length three_videos <= 10)%nat ->
        Permutation (Lambda.Analysis.top_videos a) (Lambda.top_video <$> three_videos)).
Proof.
  eexists. split; [vm_compute; reflexivity|].
  apply (top_videos_length (date 2025 3 7) test_channel three_videos).
  vm_compute. reflexivity.
Defined.

Lemma unknown_channel_is_silent_witness :
  Lambda.get_channel_info empty_youtube "@zaobaodotsg" initial = (Lambda.Ret None, initial).
Proof.
  apply (unknown_channel_is_silent empty_youtube "@zaobaodotsg" initial).
  left. split; [reflexivity|]. eexists. split; reflexivity.
Defined.

